(** * NOVA: three processing layers behind one orchestrator

    A shallow embedding of [predictive_coding/04_kafka_nova_ollama.py].

    The Python objects become records, every method becomes a function in a
    small state-and-exception monad, and the three external collaborators
    (the wall clock, the Ollama client and the Kafka handles) become
    oracles: the clock is a sequence of readings, a client answers its
    n-th call with a success or an exception, a producer may fault on its
    n-th operation.  Every external call is appended to a trace, so that
    the order in which the program performs them can be stated. *)

From Stdlib Require Import Ascii String QArith.
From stdpp Require Import base gmap strings list fin_maps.

Local Open Scope string_scope.
Local Open Scope list_scope.
Local Open Scope Z_scope.

(** ** Python values *)

(** The values stored in result dicts: [str], the numbers produced by
    [time.time()] and their differences (clock ticks, modelled on [Z]),
    and lists of [str]. *)
Inductive value :=
| VStr (s : string)
| VNum (t : Z)
| VList (l : list string).

(** A [Dict[str, Any]] whose entries are values. *)
Abbreviation dict := (gmap string value).

(** An input message.  The stages only read its ['content'] entry, which
    is a [str]; the other entries are free-form text. *)
Abbreviation Message := (gmap string string).

(** What a stage's [process] may hand to the timing wrapper: a dict, or
    any other ("bare") value. *)
Inductive pyobj :=
| ODict (d : dict)
| OVal (v : value).

(** [d.update(other)]: the entries of [other] win. *)
Definition dict_update (d other : dict) : dict := other ∪ d.

(** [message.get(key, default)] *)
Definition dict_get (m : Message) (key default : string) : string :=
  match m !! key with
  | Some v => v
  | None => default
  end.

(** [l[-n:]] for [n > 0]: the last [n] elements, the whole list when it
    is shorter. *)
Definition last_n {A} (n : nat) (l : list A) : list A :=
  drop (length l - n)%nat l.

(** [sep.join(l)] *)
Definition join (sep : string) (l : list string) : string :=
  String.concat sep l.

Definition NL : string := String "010"%char "".

(** ** Exceptions *)

(** The two exception classes of the module that are raised here, and the
    exceptions of the external libraries.  [cause] is the [from e] of a
    [raise ... from e]. *)
Inductive exn :=
| NOVALayerError (msg : string) (cause : option exn)
| KafkaPublishError (msg : string) (cause : option exn)
| ExternalError (msg : string).

(** [str(e)] *)
Definition str (e : exn) : string :=
  match e with
  | NOVALayerError msg _ => msg
  | KafkaPublishError msg _ => msg
  | ExternalError msg => msg
  end.

Inductive result (A : Type) :=
| Ok (a : A)
| Raise (e : exn).
Arguments Ok {A} a.
Arguments Raise {A} e.

(** ** The outside world *)

Record ChatMessage := { role : string; content : string }.

Record ChatOptions := { temperature : Q; num_predict : option Z }.

Record ChatRequest := {
  model : string;
  messages : list ChatMessage;
  options : ChatOptions
}.

(** A chat call either yields [response['message']['content']] or raises. *)
Inductive ChatOutcome :=
| ChatOk (text : string)
| ChatErr (msg : string).

(** External calls, in the order the program performs them.  Handles are
    told apart by the name given to them at construction. *)
Inductive event :=
| EvTime (reading : Z)
| EvChat (client : string) (req : ChatRequest)
| EvProduce (producer : string) (topic : string) (payload : dict)
| EvFlush (producer : string)
| EvConsumerClose (consumer : string).

Record World := {
  clock : nat -> Z;       (* the successive readings of [time.time()] *)
  ticks : nat;            (* how many readings were taken *)
  trace : list event
}.

Definition emit (ev : event) (w : World) : World :=
  {| clock := clock w; ticks := ticks w; trace := trace w ++ [ev] |}.

(** ** The monad: the object's state, the world, and exceptions *)

Definition M (S A : Type) : Type := S -> World -> result A * S * World.

Definition ret {S A} (a : A) : M S A := fun s w => (Ok a, s, w).

Definition raise {S A} (e : exn) : M S A := fun s w => (Raise e, s, w).

Definition bind {S A B} (m : M S A) (k : A -> M S B) : M S B :=
  fun s w =>
    match m s w with
    | (Ok a, s', w') => k a s' w'
    | (Raise e, s', w') => (Raise e, s', w')
    end.

(** [try: m  except Exception as e: handler e].  The state changes made
    before the exception are kept. *)
Definition try_except {S A} (m : M S A) (handler : exn -> M S A) : M S A :=
  fun s w =>
    match m s w with
    | (Ok a, s', w') => (Ok a, s', w')
    | (Raise e, s', w') => handler e s' w'
    end.

Definition get {S} : M S S := fun s w => (Ok s, s, w).

Definition put {S} (s : S) : M S unit := fun _ w => (Ok tt, s, w).

(** Run a method of a component on the object that owns it. *)
Definition zoom {T S A} (proj : T -> S) (upd : S -> T -> T) (m : M S A) : M T A :=
  fun t w =>
    match m (proj t) w with
    | (r, s', w') => (r, upd s' t, w')
    end.

Notation "'do' x <- m ; k" := (bind m (fun x => k))
  (at level 10, x name, m at level 100, k at level 200,
   format "'[v' 'do'  x  <-  m ; '/' k ']'").
Notation "'run' m ; k" := (bind m (fun _ => k))
  (at level 10, m at level 100, k at level 200,
   format "'[v' 'run'  m ; '/' k ']'").

Definition res_of {S A} (o : result A * S * World) : result A := o.1.1.
Definition self_of {S A} (o : result A * S * World) : S := o.1.2.
Definition world_of {S A} (o : result A * S * World) : World := o.2.

(** [time.time()] *)
Definition time_time {S} : M S Z :=
  fun s w =>
    let t := clock w (ticks w) in
    (Ok t, s, {| clock := clock w; ticks := Datatypes.S (ticks w);
                 trace := trace w ++ [EvTime t] |}).

(** [logger.error(...)], [logger.info(...)], [logger.debug(...)]: logging
    has no effect on the objects or on the calls traced here. *)
Definition logger_error {S} (msg : string) (extra : list (string * string)) : M S unit :=
  ret tt.
Definition logger_info {S} (msg : string) (extra : list (string * Z)) : M S unit :=
  ret tt.
Definition logger_debug {S} (msg : string) (extra : list (string * string)) : M S unit :=
  ret tt.

(** ** External handles

    [confluent_kafka.Producer], [confluent_kafka.Consumer] and
    [ollama.AsyncClient] are not part of the program.  They are modelled by
    the interface the program consumes: a producer queues what is produced
    and delivers it when flushed, and any of its operations may fault; a
    consumer can be closed, any number of times; a client answers a chat
    request or raises. *)

Module Producer.
Record t := {
  name : string;
  pending : list (string * dict);     (* produced, not yet delivered *)
  delivered : list (string * dict);
  faults : nat -> option string;      (* the n-th operation raises this *)
  ops : nat                           (* operations performed so far *)
}.

Definition step (p : t) (pend deliv : list (string * dict)) : t :=
  {| name := name p; pending := pend; delivered := deliv;
     faults := faults p; ops := Datatypes.S (ops p) |}.

(** [producer.produce(topic, payload, callback=...)].  The payload is
    kept as the dict that [json.dumps] serialises. *)
Definition produce (topic : string) (payload : dict) : M t unit :=
  fun p w =>
    let w' := emit (EvProduce (name p) topic payload) w in
    match faults p (ops p) with
    | Some msg => (Raise (ExternalError msg), step p (pending p) (delivered p), w')
    | None => (Ok tt, step p (pending p ++ [(topic, payload)]) (delivered p), w')
    end.

(** [producer.poll(0)]: serves the delivery callbacks, which only log. *)
Definition poll : M t unit := ret tt.

(** [producer.flush()] *)
Definition flush : M t unit :=
  fun p w =>
    let w' := emit (EvFlush (name p)) w in
    match faults p (ops p) with
    | Some msg => (Raise (ExternalError msg), step p (pending p) (delivered p), w')
    | None => (Ok tt, step p [] (delivered p ++ pending p), w')
    end.
End Producer.

Module Consumer.
Record t := { name : string; closed : bool }.

(** [consumer.close()] *)
Definition close : M t unit :=
  fun c w =>
    (Ok tt, {| name := name c; closed := true |}, emit (EvConsumerClose (name c)) w).
End Consumer.

Module OllamaClient.
Record t := {
  name : string;
  answers : nat -> ChatRequest -> ChatOutcome;   (* the answer to the n-th call *)
  calls : nat
}.

(** [(await client.chat(model=..., messages=..., options=...))['message']['content']] *)
Definition chat (req : ChatRequest) : M t string :=
  fun c w =>
    let c' := {| name := name c; answers := answers c; calls := Datatypes.S (calls c) |} in
    let w' := emit (EvChat (name c) req) w in
    match answers c (calls c) req with
    | ChatOk text => (Ok text, c', w')
    | ChatErr msg => (Raise (ExternalError msg), c', w')
    end.
End OllamaClient.

Definition MODEL_NAME : string := "llama3.2:latest".

(** ** [NOVALayer], the base class *)

Module NOVALayer.
Record t := { producer : Producer.t; consumer : Consumer.t }.

Definition set_producer (p : Producer.t) (l : t) : t :=
  {| producer := p; consumer := consumer l |}.
Definition set_consumer (c : Consumer.t) (l : t) : t :=
  {| producer := producer l; consumer := c |}.

(** [__init__]: the two handles are built from the Kafka configuration. *)
Definition init (p : Producer.t) (c : Consumer.t) : t :=
  {| producer := p; consumer := c |}.

(** [close].  Both attributes are set in [__init__] and never reset, and
    a handle object is truthy, so both guards pass. *)
Definition close : M t unit :=
  run zoom producer set_producer Producer.flush ;
  zoom consumer set_consumer Consumer.close.

(** [delivery_report]: logs, never raises. *)
Definition delivery_report (err : option string) (topic : string) : M t unit :=
  match err with
  | Some e => logger_error "Message delivery failed" [("topic", topic); ("error", e)]
  | None => logger_debug "Message delivered successfully" [("topic", topic)]
  end.

(** [publish] *)
Definition publish (topic : string) (message : dict) : M t unit :=
  try_except
    (run zoom producer set_producer (Producer.produce topic message) ;
     zoom producer set_producer Producer.poll)
    (fun e =>
       run logger_error "Failed to publish message to Kafka"
             [("topic", topic); ("error", str e)] ;
       raise (KafkaPublishError ("Failed to publish message to Kafka: " +:+ str e) (Some e))).
End NOVALayer.

(** A class derived from [NOVALayer]: its instances contain the base
    object, and [__class__.__name__] is known. *)
Class Layer (S : Type) := {
  base : S -> NOVALayer.t;
  set_base : NOVALayer.t -> S -> S;
  class_name : string
}.

(** Inherited methods. *)
Definition close {S} `{Layer S} : M S unit := zoom base set_base NOVALayer.close.
Definition publish {S} `{Layer S} (topic : string) (message : dict) : M S unit :=
  zoom base set_base (NOVALayer.publish topic message).
Definition flush_producer {S} `{Layer S} : M S unit :=
  zoom base set_base (zoom NOVALayer.producer NOVALayer.set_producer Producer.flush).

(** ** [timed_process], the decorator *)

Definition timing (start_time end_time : Z) : dict :=
  {[ "start_time" := VNum start_time;
     "end_time" := VNum end_time;
     "processing_duration" := VNum (end_time - start_time) ]}.

Definition timed_process {S} `{Layer S}
    (func : Message -> M S pyobj) (message : Message) : M S dict :=
  do start_time <- time_time ;
  try_except
    (do result <- func message ;
     do end_time <- time_time ;
     match result with
     | ODict d => ret (dict_update d (timing start_time end_time))
     | OVal v => ret (<["result" := v]> (timing start_time end_time))
     end)
    (fun e =>
       run logger_error "Layer processing failed"
             [("layer", class_name); ("error", str e)] ;
       raise (NOVALayerError ("Layer processing failed: " +:+ str e) (Some e))).

(** ** The three layers *)

Definition chat_request (system_prompt user_prompt : string) (opts : ChatOptions)
    : ChatRequest :=
  {| model := MODEL_NAME;
     messages := [ {| role := "system"; content := system_prompt |};
                   {| role := "user"; content := user_prompt |} ];
     options := opts |}.

Module ReactiveLayer.
Record t := {
  super : NOVALayer.t;
  ollama : OllamaClient.t;
  system_prompt : string
}.

Definition set_super (b : NOVALayer.t) (l : t) : t :=
  {| super := b; ollama := ollama l; system_prompt := system_prompt l |}.
Definition set_ollama (c : OllamaClient.t) (l : t) : t :=
  {| super := super l; ollama := c; system_prompt := system_prompt l |}.

Definition SYSTEM_PROMPT : string :=
  "You are a reactive processor that gives IMMEDIATE, VERY SHORT responses." +:+ NL +:+
  "        Rules:" +:+ NL +:+
  "        1. Respond in 10 words or less" +:+ NL +:+
  "        2. Focus only on immediate action or reaction" +:+ NL +:+
  "        3. No explanations or analysis" +:+ NL +:+
  "        4. Be direct and clear" +:+ NL +:+
  "        5. Use imperative form when appropriate".

Definition init (p : Producer.t) (c : Consumer.t) (o : OllamaClient.t) : t :=
  {| super := NOVALayer.init p c; ollama := o; system_prompt := SYSTEM_PROMPT |}.

#[global] Instance layer : Layer t :=
  {| base := super; set_base := set_super; class_name := "ReactiveLayer" |}.

(** The body of [process], before decoration. *)
Definition process_body (message : Message) : M t pyobj :=
  try_except
    (let content := dict_get message "content" "" in
     do self <- get ;
     do response <- zoom ollama set_ollama
          (OllamaClient.chat
             (chat_request (system_prompt self) content
                {| temperature := 3 # 10; num_predict := Some 50 |})) ;
     ret (ODict {[ "type" := VStr "reactive_response";
                   "content" := VStr response;
                   "source" := VStr MODEL_NAME ]}))
    (fun e =>
       run logger_error ("Reactive layer processing failed: " +:+ str e) [] ;
       raise (NOVALayerError ("Reactive processing failed: " +:+ str e) None)).

Definition process : Message -> M t dict := timed_process process_body.
End ReactiveLayer.

Module ResponsiveLayer.
Record t := {
  super : NOVALayer.t;
  ollama : OllamaClient.t;
  system_prompt : string;
  context_history : list string
}.

Definition set_super (b : NOVALayer.t) (l : t) : t :=
  {| super := b; ollama := ollama l; system_prompt := system_prompt l;
     context_history := context_history l |}.
Definition set_ollama (c : OllamaClient.t) (l : t) : t :=
  {| super := super l; ollama := c; system_prompt := system_prompt l;
     context_history := context_history l |}.
Definition set_context_history (h : list string) (l : t) : t :=
  {| super := super l; ollama := ollama l; system_prompt := system_prompt l;
     context_history := h |}.

Definition SYSTEM_PROMPT : string :=
  "You are a responsive processor that considers immediate " +:+ NL +:+
  "        context and gives thoughtful, measured responses. Balance between quick response " +:+ NL +:+
  "        and careful consideration.".

Definition init (p : Producer.t) (c : Consumer.t) (o : OllamaClient.t) : t :=
  {| super := NOVALayer.init p c; ollama := o; system_prompt := SYSTEM_PROMPT;
     context_history := [] |}.

#[global] Instance layer : Layer t :=
  {| base := super; set_base := set_super; class_name := "ResponsiveLayer" |}.

Definition context_prompt (history : list string) (content : string) : string :=
  "Previous context: " +:+ join " | " history +:+ NL +:+ "Current input: " +:+ content.

Definition process_body (message : Message) : M t pyobj :=
  try_except
    (let content := dict_get message "content" "" in
     do self <- get ;
     run put (set_context_history (context_history self ++ [content]) self) ;
     do self <- get ;
     run put (set_context_history (last_n 5 (context_history self)) self) ;
     do self <- get ;
     let context_prompt := context_prompt (context_history self) content in
     do response <- zoom ollama set_ollama
          (OllamaClient.chat
             (chat_request (system_prompt self) context_prompt
                {| temperature := 7 # 10; num_predict := Some 100 |})) ;
     do self <- get ;
     ret (ODict {[ "type" := VStr "responsive_response";
                   "content" := VStr response;
                   "context" := VList (context_history self);
                   "source" := VStr MODEL_NAME ]}))
    (fun e =>
       run logger_error ("Responsive layer processing failed: " +:+ str e) [] ;
       raise (NOVALayerError ("Responsive processing failed: " +:+ str e) None)).

Definition process : Message -> M t dict := timed_process process_body.
End ResponsiveLayer.

Module ReflectiveLayer.
Record t := {
  super : NOVALayer.t;
  ollama : OllamaClient.t;
  system_prompt : string;
  learned_patterns : list string
}.

Definition set_super (b : NOVALayer.t) (l : t) : t :=
  {| super := b; ollama := ollama l; system_prompt := system_prompt l;
     learned_patterns := learned_patterns l |}.
Definition set_ollama (c : OllamaClient.t) (l : t) : t :=
  {| super := super l; ollama := c; system_prompt := system_prompt l;
     learned_patterns := learned_patterns l |}.
Definition set_learned_patterns (ps : list string) (l : t) : t :=
  {| super := super l; ollama := ollama l; system_prompt := system_prompt l;
     learned_patterns := ps |}.

Definition SYSTEM_PROMPT : string :=
  "You are a reflective processor focused on deep analysis, " +:+ NL +:+
  "        pattern recognition, and learning. Consider long-term implications and generate insights.".

Definition init (p : Producer.t) (c : Consumer.t) (o : OllamaClient.t) : t :=
  {| super := NOVALayer.init p c; ollama := o; system_prompt := SYSTEM_PROMPT;
     learned_patterns := [] |}.

#[global] Instance layer : Layer t :=
  {| base := super; set_base := set_super; class_name := "ReflectiveLayer" |}.

Definition analysis_prompt (patterns_context content : string) : string :=
  "Analyze this input deeply, considering these previous patterns:" +:+ NL +:+
  "            " +:+ patterns_context +:+ NL +:+
  "            " +:+ NL +:+
  "            Current input: " +:+ content +:+ NL +:+
  "            " +:+ NL +:+
  "            Identify new patterns, insights, or learning opportunities.".

Definition process_body (message : Message) : M t pyobj :=
  try_except
    (let content := dict_get message "content" "" in
     do self <- get ;
     let patterns_context := join NL (last_n 3 (learned_patterns self)) in
     let analysis_prompt := analysis_prompt patterns_context content in
     do response <- zoom ollama set_ollama
          (OllamaClient.chat
             (chat_request (system_prompt self) analysis_prompt
                {| temperature := 7 # 10; num_predict := None |})) ;
     do self <- get ;
     run put (set_learned_patterns (learned_patterns self ++ [response]) self) ;
     do self <- get ;
     ret (ODict {[ "type" := VStr "reflective_update";
                   "content" := VStr response;
                   "patterns" := VList (last_n 3 (learned_patterns self));
                   "source" := VStr MODEL_NAME ]}))
    (fun e =>
       run logger_error ("Reflective layer processing failed: " +:+ str e) [] ;
       raise (NOVALayerError ("Reflective processing failed: " +:+ str e) None)).

Definition process : Message -> M t dict := timed_process process_body.
End ReflectiveLayer.

(** ** [NOVA], the orchestrator *)

(** [for x in xs: body x], each [body x] already applied. *)
Fixpoint for_each {S} (bodies : list (M S unit)) : M S unit :=
  match bodies with
  | [] => ret tt
  | m :: rest => run m ; for_each rest
  end.

Module NOVA.
Record t := {
  reactive : ReactiveLayer.t;
  responsive : ResponsiveLayer.t;
  reflective : ReflectiveLayer.t
}.

Definition set_reactive (l : ReactiveLayer.t) (n : t) : t :=
  {| reactive := l; responsive := responsive n; reflective := reflective n |}.
Definition set_responsive (l : ResponsiveLayer.t) (n : t) : t :=
  {| reactive := reactive n; responsive := l; reflective := reflective n |}.
Definition set_reflective (l : ReflectiveLayer.t) (n : t) : t :=
  {| reactive := reactive n; responsive := responsive n; reflective := l |}.

(** The entry stored for a stage whose awaited call raised [e]. *)
Definition error_entry (name : string) (e : exn) : dict :=
  {[ "type" := VStr (name +:+ "_error"); "content" := VStr (str e) ]}.

(** [for name, task in tasks.items(): try: results[name] = await task
    except Exception as e: results[name] = {...}].

    A task is a coroutine object: calling an [async def] runs none of its
    body, which runs when the object is awaited.  So a task is an action
    of the monad, and awaiting it runs it there and then. *)
Fixpoint await_all (tasks : list (string * M t dict)) (results : gmap string dict)
    : M t (gmap string dict) :=
  match tasks with
  | [] => ret results
  | (name, task) :: rest =>
      do results <-
        try_except
          (do r <- task ; ret (<[name := r]> results))
          (fun e =>
             run logger_error ("Error in " +:+ name +:+ " layer") [] ;
             ret (<[name := error_entry name e]> results)) ;
      await_all rest results
  end.

(** The dict [tasks], in insertion order. *)
Definition tasks (message : Message) : list (string * M t dict) :=
  [ ("reactive", zoom reactive set_reactive (ReactiveLayer.process message));
    ("responsive", zoom responsive set_responsive (ResponsiveLayer.process message));
    ("reflective", zoom reflective set_reflective (ReflectiveLayer.process message)) ].

(** [for layer in (self.reactive, self.responsive, self.reflective)] *)
Definition flush_all : M t unit :=
  for_each [ zoom reactive set_reactive flush_producer;
             zoom responsive set_responsive flush_producer;
             zoom reflective set_reflective flush_producer ].

Definition process_message (message : Message) : M t (gmap string dict) :=
  do now <- time_time ;
  run logger_info "Starting parallel processing" [("timestamp", now)] ;
  let tasks := tasks message in
  do results <- await_all tasks ∅ ;
  run try_except flush_all
        (fun e =>
           run logger_error "Failed to flush producers" [] ;
           raise e) ;
  do now <- time_time ;
  run logger_info "All processing completed" [("timestamp", now)] ;
  ret results.

Definition close : M t unit :=
  for_each [ zoom reactive set_reactive close;
             zoom responsive set_responsive close;
             zoom reflective set_reflective close ].
End NOVA.

(** Feeding a layer a sequence of messages, one [process] call after the
    other, whatever each call returns or raises. *)
Fixpoint feed {S A} (process : Message -> M S A) (msgs : list Message)
    (s : S) (w : World) : S * World :=
  match msgs with
  | [] => (s, w)
  | m :: rest =>
      let o := process m s w in
      feed process rest (self_of o) (world_of o)
  end.

(** ** Concrete handles, for examples *)

Definition no_faults : nat -> option string := fun _ => None.

Definition mk_producer (name : string) (faults : nat -> option string) : Producer.t :=
  {| Producer.name := name; Producer.pending := []; Producer.delivered := [];
     Producer.faults := faults; Producer.ops := 0 |}.

Definition mk_consumer (name : string) : Consumer.t :=
  {| Consumer.name := name; Consumer.closed := false |}.

Definition mk_client (name : string) (answers : nat -> ChatRequest -> ChatOutcome)
    : OllamaClient.t :=
  {| OllamaClient.name := name; OllamaClient.answers := answers; OllamaClient.calls := 0 |}.

(** A client that echoes a fixed text, and one that always fails. *)
Definition always (text : string) : nat -> ChatRequest -> ChatOutcome :=
  fun _ _ => ChatOk text.
Definition never (msg : string) : nat -> ChatRequest -> ChatOutcome :=
  fun _ _ => ChatErr msg.

(** [NOVA(kafka_config)] over given handles. *)
Definition mk_nova (fr fs ff : nat -> option string)
    (ar as_ af : nat -> ChatRequest -> ChatOutcome) : NOVA.t :=
  {| NOVA.reactive :=
       ReactiveLayer.init (mk_producer "reactive" fr) (mk_consumer "reactive")
         (mk_client "reactive" ar);
     NOVA.responsive :=
       ResponsiveLayer.init (mk_producer "responsive" fs) (mk_consumer "responsive")
         (mk_client "responsive" as_);
     NOVA.reflective :=
       ReflectiveLayer.init (mk_producer "reflective" ff) (mk_consumer "reflective")
         (mk_client "reflective" af) |}.

Definition world0 : World :=
  {| clock := fun n => 100 + 10 * Z.of_nat n; ticks := 0; trace := [] |}.

(** A clock that is set back by 10 at every reading. *)
Definition world_backward : World :=
  {| clock := fun n => 110 - 10 * Z.of_nat n; ticks := 0; trace := [] |}.

Definition msg0 : Message := {[ "type" := "user_input"; "content" := "test input" ]}.

(** ** What each stage asks its backend, and what it is answered *)

(** The client after one more call. *)
Definition called (c : OllamaClient.t) : OllamaClient.t :=
  {| OllamaClient.name := OllamaClient.name c;
     OllamaClient.answers := OllamaClient.answers c;
     OllamaClient.calls := Datatypes.S (OllamaClient.calls c) |}.

Definition answer (c : OllamaClient.t) (req : ChatRequest) : ChatOutcome :=
  OllamaClient.answers c (OllamaClient.calls c) req.

Definition reactive_request (l : ReactiveLayer.t) (msg : Message) : ChatRequest :=
  chat_request (ReactiveLayer.system_prompt l) (dict_get msg "content" "")
    {| temperature := 3 # 10; num_predict := Some 50 |}.

Definition responsive_history (l : ResponsiveLayer.t) (msg : Message) : list string :=
  last_n 5 (ResponsiveLayer.context_history l ++ [dict_get msg "content" ""]).

Definition responsive_request (l : ResponsiveLayer.t) (msg : Message) : ChatRequest :=
  chat_request (ResponsiveLayer.system_prompt l)
    (ResponsiveLayer.context_prompt (responsive_history l msg) (dict_get msg "content" ""))
    {| temperature := 7 # 10; num_predict := Some 100 |}.

Definition reflective_request (l : ReflectiveLayer.t) (msg : Message) : ChatRequest :=
  chat_request (ReflectiveLayer.system_prompt l)
    (ReflectiveLayer.analysis_prompt
       (join NL (last_n 3 (ReflectiveLayer.learned_patterns l)))
       (dict_get msg "content" ""))
    {| temperature := 7 # 10; num_predict := None |}.

(** The exception a wrapped [process] raises when its backend call raised
    [cause]: the stage re-raises it under its own label, the wrapper once
    more. *)
Definition stage_error (label cause : string) : exn :=
  NOVALayerError ("Layer processing failed: " +:+ label +:+ " processing failed: " +:+ cause)
    (Some (NOVALayerError (label +:+ " processing failed: " +:+ cause) None)).

(** The world after [k] more clock readings and the calls [evs]. *)
Definition advance (k : nat) (evs : list event) (w : World) : World :=
  {| clock := clock w; ticks := (k + ticks w)%nat; trace := trace w ++ evs |}.

(** The [n]-th next clock reading. *)
Definition reading (w : World) (n : nat) : Z := clock w (n + ticks w)%nat.

(** The external calls of one wrapped [process]: the start reading, the
    chat call and, when it answered, the end reading. *)
Definition stage_events (client : string) (req : ChatRequest) (ans : ChatOutcome)
    (w : World) : list event :=
  ([EvTime (reading w 0); EvChat client req] ++
   match ans with
   | ChatOk _ => [EvTime (reading w 1)]
   | ChatErr _ => []
   end)%list.

Definition stage_reads (ans : ChatOutcome) : nat :=
  match ans with
  | ChatOk _ => 2
  | ChatErr _ => 1
  end.

(** ** Objects for the examples *)

Definition learning_reflective : ReflectiveLayer.t :=
  ReflectiveLayer.init (mk_producer "reflective" no_faults) (mk_consumer "reflective")
    (mk_client "reflective" (always "a pattern")).

Definition failing_responsive : ResponsiveLayer.t :=
  ResponsiveLayer.init (mk_producer "responsive" no_faults) (mk_consumer "responsive")
    (mk_client "responsive" (never "backend down")).

(** The three backends answer. *)
Definition nova_ok : NOVA.t :=
  mk_nova no_faults no_faults no_faults (always "act") (always "consider") (always "learn").

(** The Reflective backend is down. *)
Definition nova_reflective_down : NOVA.t :=
  mk_nova no_faults no_faults no_faults (always "act") (always "consider") (never "boom").

(** The Reactive layer's producer cannot reach the broker. *)
Definition nova_broker_down : NOVA.t :=
  mk_nova (fun _ => Some "broker unreachable") no_faults no_faults
    (always "act") (always "consider") (always "learn").


Definition payload0 : dict := {[ "type" := VStr "reactive_response"; "content" := VStr "act" ]}.

(** ** Assumptions on the clock *)

(** [time.time()] never goes backwards. *)
Definition clock_monotone (w : World) : Prop :=
  ∀ i j : nat, (i ≤ j)%nat → clock w i ≤ clock w j.

(** An action that leaves the clock alone: it may read it, it does not
    rewind it. *)
Definition keeps_clock {S A} (m : M S A) : Prop :=
  ∀ (s : S) (w : World),
    clock (world_of (m s w)) = clock w ∧ (ticks w ≤ ticks (world_of (m s w)))%nat.

(** ** The producers of the three layers, and what flushing them does *)

Definition producers (n : NOVA.t) : list Producer.t :=
  [ NOVALayer.producer (ReactiveLayer.super (NOVA.reactive n));
    NOVALayer.producer (ResponsiveLayer.super (NOVA.responsive n));
    NOVALayer.producer (ReflectiveLayer.super (NOVA.reflective n)) ].

(** The next operation of the producer does not fault. *)
Definition sound (p : Producer.t) : Prop :=
  Producer.faults p (Producer.ops p) = None.

(** Flushing producers in order until one faults: the flush calls made,
    and the fault that stopped them. *)
Fixpoint flush_attempts (ps : list Producer.t) : list event * option string :=
  match ps with
  | [] => ([], None)
  | p :: rest =>
      match Producer.faults p (Producer.ops p) with
      | Some msg => ([EvFlush (Producer.name p)], Some msg)
      | None =>
          let '(evs, fault) := flush_attempts rest in
          (EvFlush (Producer.name p) :: evs, fault)
      end
  end.

(** ** The stages of a round *)

Definition stage_names : list string := ["reactive"; "responsive"; "reflective"].

(** What the backend of the named stage answers in the coming round. *)
Definition backend_answer (name : string) (msg : Message) (n : NOVA.t) : ChatOutcome :=
  if decide (name = "reactive") then
    answer (ReactiveLayer.ollama (NOVA.reactive n)) (reactive_request (NOVA.reactive n) msg)
  else if decide (name = "responsive") then
    answer (ResponsiveLayer.ollama (NOVA.responsive n))
      (responsive_request (NOVA.responsive n) msg)
  else
    answer (ReflectiveLayer.ollama (NOVA.reflective n))
      (reflective_request (NOVA.reflective n) msg).

(** The label a stage puts in its error message, and the tag of its
    successful result. *)
Definition stage_label (name : string) : string :=
  if decide (name = "reactive") then "Reactive"
  else if decide (name = "responsive") then "Responsive"
  else "Reflective".

Definition stage_tag (name : string) : string :=
  if decide (name = "reactive") then "reactive_response"
  else if decide (name = "responsive") then "responsive_response"
  else "reflective_update".

(** The entry of the result mapping for a stage, from the outcome of its
    awaited call. *)
Definition stage_entry (name : string) (o : result dict) : dict :=
  match o with
  | Ok d => d
  | Raise e => NOVA.error_entry name e
  end.

(** The external calls of the three stages in a round that starts in
    world [w], the round's first clock reading already taken. *)
Definition round_stage_events (msg : Message) (n : NOVA.t) (w : World) : list event :=
  let a1 := backend_answer "reactive" msg n in
  let a2 := backend_answer "responsive" msg n in
  let a3 := backend_answer "reflective" msg n in
  stage_events (OllamaClient.name (ReactiveLayer.ollama (NOVA.reactive n)))
    (reactive_request (NOVA.reactive n) msg) a1 (advance 1 [] w) ++
  stage_events (OllamaClient.name (ResponsiveLayer.ollama (NOVA.responsive n)))
    (responsive_request (NOVA.responsive n) msg) a2 (advance (1 + stage_reads a1) [] w) ++
  stage_events (OllamaClient.name (ReflectiveLayer.ollama (NOVA.reflective n)))
    (reflective_request (NOVA.reflective n) msg) a3
    (advance (1 + stage_reads a1 + stage_reads a2) [] w).

(** The clock readings the three stages take in a round. *)
Definition round_reads (msg : Message) (n : NOVA.t) : nat :=
  (stage_reads (backend_answer "reactive" msg n) +
   stage_reads (backend_answer "responsive" msg n) +
   stage_reads (backend_answer "reflective" msg n))%nat.

(** The result of a stage whose backend answered [text], before the timing
    fields are merged in. *)
Definition stage_result (name : string) (msg : Message) (n : NOVA.t) (text : string) : dict :=
  if decide (name = "reactive") then
    {[ "type" := VStr "reactive_response"; "content" := VStr text;
       "source" := VStr MODEL_NAME ]}
  else if decide (name = "responsive") then
    {[ "type" := VStr "responsive_response"; "content" := VStr text;
       "context" := VList (responsive_history (NOVA.responsive n) msg);
       "source" := VStr MODEL_NAME ]}
  else
    {[ "type" := VStr "reflective_update"; "content" := VStr text;
       "patterns" :=
         VList (last_n 3 (ReflectiveLayer.learned_patterns (NOVA.reflective n) ++ [text]));
       "source" := VStr MODEL_NAME ]}.

(** The entry of the result mapping for the named stage, its wrapper having
    started in world [w]. *)
Definition round_entry (name : string) (msg : Message) (n : NOVA.t) (w : World) : dict :=
  match backend_answer name msg n with
  | ChatOk text =>
      dict_update (stage_result name msg n text) (timing (reading w 0) (reading w 1))
  | ChatErr cause => NOVA.error_entry name (stage_error (stage_label name) cause)
  end.

(** The result mapping of a round that starts in world [w]. *)
Definition round_results (msg : Message) (n : NOVA.t) (w : World) : gmap string dict :=
  let a1 := backend_answer "reactive" msg n in
  let a2 := backend_answer "responsive" msg n in
  <["reflective" := round_entry "reflective" msg n
                      (advance (1 + stage_reads a1 + stage_reads a2) [] w)]>
    (<["responsive" := round_entry "responsive" msg n (advance (1 + stage_reads a1) [] w)]>
       (<["reactive" := round_entry "reactive" msg n (advance 1 [] w)]> ∅)).


(** How many calls of a sequence returned normally. *)
Fixpoint successes {S A} (process : Message -> M S A) (msgs : list Message)
    (s : S) (w : World) : nat :=
  match msgs with
  | [] => 0
  | m :: rest =>
      let o := process m s w in
      ((match res_of o with Ok _ => 1 | Raise _ => 0 end) +
       successes process rest (self_of o) (world_of o))%nat
  end.

(** A layer with one message pending, whose producer faults once. *)
Definition flaky_layer : NOVALayer.t :=
  NOVALayer.init
    {| Producer.name := "layer"; Producer.pending := [("nova.reactive", payload0)];
       Producer.delivered := [];
       Producer.faults := fun n => match n with O => Some "timed out" | _ => None end;
       Producer.ops := 0 |}
    (mk_consumer "layer").

(** ** The remaining methods *)

(** [NOVALayer.__del__]: [try: self.close()  except: pass].  It is
    inherited by the three layers. *)
Definition __del__ {S} `{Layer S} : M S unit :=
  try_except close (fun _ => ret tt).

Definition is_produce (ev : event) : bool :=
  match ev with
  | EvProduce _ _ _ => true
  | _ => false
  end.

(** What a producer holds, delivered or not, in the order published. *)
Definition held (p : Producer.t) : list (string * dict) :=
  Producer.delivered p ++ Producer.pending p.

(** * Properties *)

Ltac unfold_M :=
  unfold bind, try_except, ret, raise, get, put, zoom, time_time,
    logger_error, logger_info, logger_debug in *.

Ltac unfold_out := unfold res_of, self_of, world_of in *; simpl in *.

Lemma app_snoc {A} (l : list A) (x : A) (l' : list A) :
  ((l ++ [x]) ++ l' = l ++ x :: l')%list.
Proof. by rewrite <- app_assoc. Qed.

(** ** The three wrapped [process] methods, computed *)

Lemma reactive_process_eq (msg : Message) (l : ReactiveLayer.t) (w : World) :
  ReactiveLayer.process msg l w =
  let c := ReactiveLayer.ollama l in
  let req := reactive_request l msg in
  let l' := ReactiveLayer.set_ollama (called c) l in
  let w' := advance (stage_reads (answer c req))
              (stage_events (OllamaClient.name c) req (answer c req) w) w in
  match answer c req with
  | ChatOk text =>
      (Ok (dict_update {[ "type" := VStr "reactive_response";
                          "content" := VStr text;
                          "source" := VStr MODEL_NAME ]}
             (timing (reading w 0) (reading w 1))), l', w')
  | ChatErr cause => (Raise (stage_error "Reactive" cause), l', w')
  end.
Proof.
  unfold ReactiveLayer.process, timed_process, ReactiveLayer.process_body,
    OllamaClient.chat, emit, answer, reactive_request, advance, stage_events, reading.
  unfold_M. cbn.
  destruct (OllamaClient.answers _ _ _); cbn; rewrite ?app_snoc; reflexivity.
Qed.

Lemma last_n_length {A} (n : nat) (l : list A) : (length (last_n n l) ≤ n)%nat.
Proof. unfold last_n. rewrite length_drop. lia. Qed.

Lemma last_n_short {A} (n : nat) (l : list A) : (length l ≤ n)%nat → last_n n l = l.
Proof.
  intros Hl. unfold last_n. replace (length l - n)%nat with 0%nat by lia. reflexivity.
Qed.

Lemma last_n_app {A} (n : nat) (l1 l2 : list A) :
  (n ≤ length l2)%nat → last_n n (l1 ++ l2)%list = last_n n l2.
Proof.
  intros Hn. unfold last_n. rewrite length_app.
  replace (length l1 + length l2 - n)%nat with (length l1 + (length l2 - n))%nat by lia.
  by rewrite drop_app_add.
Qed.

(** Truncating, appending and truncating again is truncating once. *)
Lemma last_n_snoc {A} (n : nat) (l : list A) (x : A) :
  (0 < n)%nat → last_n n (last_n n l ++ [x])%list = last_n n (l ++ [x])%list.
Proof.
  intros Hn. destruct (decide (length l ≤ n)%nat) as [Hl|Hl].
  - by rewrite (last_n_short n l).
  - unfold last_n at 2.
    rewrite <- (take_drop (length l - n) l) at 3.
    rewrite <- app_assoc.
    rewrite (last_n_app n (take (length l - n) l)); [reflexivity|].
    rewrite length_app, length_drop. simpl. lia.
Qed.

Lemma last_n_last {A} (n : nat) (l : list A) (x : A) :
  (0 < n)%nat → last (last_n n (l ++ [x])%list) = Some x.
Proof.
  intros Hn. unfold last_n. rewrite length_app. simpl.
  rewrite drop_app_le by lia. rewrite last_snoc. reflexivity.
Qed.

Lemma responsive_process_eq (msg : Message) (l : ResponsiveLayer.t) (w : World) :
  ResponsiveLayer.process msg l w =
  let c := ResponsiveLayer.ollama l in
  let req := responsive_request l msg in
  let l' := ResponsiveLayer.set_ollama (called c)
              (ResponsiveLayer.set_context_history (responsive_history l msg) l) in
  let w' := advance (stage_reads (answer c req))
              (stage_events (OllamaClient.name c) req (answer c req) w) w in
  match answer c req with
  | ChatOk text =>
      (Ok (dict_update {[ "type" := VStr "responsive_response";
                          "content" := VStr text;
                          "context" := VList (responsive_history l msg);
                          "source" := VStr MODEL_NAME ]}
             (timing (reading w 0) (reading w 1))), l', w')
  | ChatErr cause => (Raise (stage_error "Responsive" cause), l', w')
  end.
Proof.
  unfold ResponsiveLayer.process, timed_process, ResponsiveLayer.process_body,
    OllamaClient.chat, emit, answer, responsive_request, responsive_history,
    advance, stage_events, reading.
  unfold_M. cbn.
  destruct (OllamaClient.answers _ _ _); cbn; rewrite ?app_snoc; reflexivity.
Qed.

Lemma reflective_process_eq (msg : Message) (l : ReflectiveLayer.t) (w : World) :
  ReflectiveLayer.process msg l w =
  let c := ReflectiveLayer.ollama l in
  let req := reflective_request l msg in
  let w' := advance (stage_reads (answer c req))
              (stage_events (OllamaClient.name c) req (answer c req) w) w in
  match answer c req with
  | ChatOk text =>
      let patterns := (ReflectiveLayer.learned_patterns l ++ [text])%list in
      (Ok (dict_update {[ "type" := VStr "reflective_update";
                          "content" := VStr text;
                          "patterns" := VList (last_n 3 patterns);
                          "source" := VStr MODEL_NAME ]}
             (timing (reading w 0) (reading w 1))),
       ReflectiveLayer.set_learned_patterns patterns
         (ReflectiveLayer.set_ollama (called c) l), w')
  | ChatErr cause =>
      (Raise (stage_error "Reflective" cause),
       ReflectiveLayer.set_ollama (called c) l, w')
  end.
Proof.
  unfold ReflectiveLayer.process, timed_process, ReflectiveLayer.process_body,
    OllamaClient.chat, emit, answer, reflective_request, advance, stage_events, reading.
  unfold_M. cbn.
  destruct (OllamaClient.answers _ _ _); cbn; rewrite ?app_snoc; reflexivity.
Qed.

(** ** The timing wrapper *)

Lemma keeps_clock_reactive (msg : Message) : keeps_clock (ReactiveLayer.process_body msg).
Proof.
  intros l w. unfold ReactiveLayer.process_body, OllamaClient.chat, emit.
  unfold_M. unfold world_of. cbn.
  destruct (OllamaClient.answers _ _ _); cbn; split; (reflexivity || lia).
Qed.

Lemma keeps_clock_responsive (msg : Message) : keeps_clock (ResponsiveLayer.process_body msg).
Proof.
  intros l w. unfold ResponsiveLayer.process_body, OllamaClient.chat, emit.
  unfold_M. unfold world_of. cbn.
  destruct (OllamaClient.answers _ _ _); cbn; split; (reflexivity || lia).
Qed.

Lemma keeps_clock_reflective (msg : Message) : keeps_clock (ReflectiveLayer.process_body msg).
Proof.
  intros l w. unfold ReflectiveLayer.process_body, OllamaClient.chat, emit.
  unfold_M. unfold world_of. cbn.
  destruct (OllamaClient.answers _ _ _); cbn; split; (reflexivity || lia).
Qed.

Lemma timing_lookup (t0 t1 : Z) :
  timing t0 t1 !! "start_time" = Some (VNum t0) ∧
  timing t0 t1 !! "end_time" = Some (VNum t1) ∧
  timing t0 t1 !! "processing_duration" = Some (VNum (t1 - t0)).
Proof. unfold timing. repeat split; by simplify_map_eq. Qed.

Lemma timing_lookup_other (t0 t1 : Z) (k : string) :
  k ∉ ["start_time"; "end_time"; "processing_duration"] → timing t0 t1 !! k = None.
Proof.
  intros Hk. unfold timing.
  assert (k ≠ "start_time") by (intros ->; apply Hk; set_solver).
  assert (k ≠ "end_time") by (intros ->; apply Hk; set_solver).
  assert (k ≠ "processing_duration") by (intros ->; apply Hk; set_solver).
  by simplify_map_eq.
Qed.

Lemma dict_update_lookup (d other : dict) (k : string) :
  dict_update d other !! k =
  match other !! k with
  | Some v => Some v
  | None => d !! k
  end.
Proof.
  unfold dict_update. rewrite lookup_union.
  destruct (other !! k), (d !! k); reflexivity.
Qed.

(** C5, as the code has it.  Whenever a wrapped [process] returns, its
    result carries [start_time] and [end_time], the readings of
    [time.time()] taken before and after the wrapped call, and
    [processing_duration = end_time - start_time]; if the wrapped function
    returned a dict the three fields are merged into it, otherwise the bare
    value is wrapped under ["result"] next to them.  [end_time >= start_time]
    holds when the clock did not go backwards, which [time.time()] does not
    promise. *)
Theorem timed_process_timing {S} `{Layer S}
    (func : Message -> M S pyobj) (msg : Message) (s : S) (w : World) (r : dict) :
  res_of (timed_process func msg s w) = Ok r →
  let inner := func msg s (world_of (time_time s w)) in
  let start_time := clock w (ticks w) in
  let end_time := clock (world_of inner) (ticks (world_of inner)) in
  r !! "start_time" = Some (VNum start_time) ∧
  r !! "end_time" = Some (VNum end_time) ∧
  r !! "processing_duration" = Some (VNum (end_time - start_time)) ∧
  (clock_monotone w → keeps_clock (func msg) → start_time ≤ end_time) ∧
  match res_of inner with
  | Ok (ODict d) =>
      r = dict_update d (timing start_time end_time) ∧
      ∀ k, k ∉ ["start_time"; "end_time"; "processing_duration"] → r !! k = d !! k
  | Ok (OVal v) =>
      r = {[ "result" := v;
             "start_time" := VNum start_time;
             "end_time" := VNum end_time;
             "processing_duration" := VNum (end_time - start_time) ]}
  | Raise _ => False
  end.
Proof.
  intros Hres inner start_time end_time. subst inner start_time end_time.
  unfold timed_process in Hres. unfold_M. unfold res_of, world_of in *. cbn in *.
  set (w1 := {| clock := clock w; ticks := Datatypes.S (ticks w);
                trace := (trace w ++ [EvTime (clock w (ticks w))])%list |}) in *.
  assert (Hle : clock_monotone w → keeps_clock (func msg) →
                clock w (ticks w) ≤ clock (func msg s w1).2 (ticks (func msg s w1).2)).
  { intros Hmono Hkeep. destruct (Hkeep s w1) as [Hclock Hticks].
    unfold world_of in Hclock, Hticks. rewrite Hclock. apply Hmono.
    simpl in Hticks. lia. }
  destruct (func msg s w1) as [[[res|e] s'] w2]; cbn in *; [|discriminate].
  destruct (timing_lookup (clock w (ticks w)) (clock w2 (ticks w2))) as (H1 & H2 & H3).
  destruct res as [d|v]; cbn in Hres; inversion Hres; subst r; clear Hres.
  - rewrite !dict_update_lookup, H1, H2, H3.
    repeat split; try assumption.
    intros k Hk. rewrite dict_update_lookup, timing_lookup_other; [reflexivity|].
    intros Hin. apply Hk. set_solver.
  - repeat split; try assumption; by rewrite lookup_insert_ne.
Qed.

(** ** The Responsive stage's history *)

Lemma last_n_last_n_app {A} (n : nat) (l l2 : list A) :
  last_n n (last_n n l ++ l2) = last_n n (l ++ l2).
Proof.
  destruct (decide (length l ≤ n)%nat) as [Hl|Hl].
  - by rewrite (last_n_short n l).
  - unfold last_n. rewrite !length_app, length_drop.
    replace (length l - (length l - n) + length l2 - n)%nat with (length l2) by lia.
    replace (length l + length l2 - n)%nat with ((length l - n) + length l2)%nat by lia.
    rewrite <- drop_drop. f_equal. rewrite drop_app_le by lia. reflexivity.
Qed.

Lemma responsive_process_history (msg : Message) (l : ResponsiveLayer.t) (w : World) :
  ResponsiveLayer.context_history (self_of (ResponsiveLayer.process msg l w)) =
  responsive_history l msg.
Proof.
  rewrite responsive_process_eq. cbv zeta.
  destruct (answer _ _); reflexivity.
Qed.

Lemma responsive_process_trace (msg : Message) (l : ResponsiveLayer.t) (w : World) :
  world_of (ResponsiveLayer.process msg l w) =
  let ans := answer (ResponsiveLayer.ollama l) (responsive_request l msg) in
  advance (stage_reads ans)
    (stage_events (OllamaClient.name (ResponsiveLayer.ollama l))
       (responsive_request l msg) ans w) w.
Proof.
  rewrite responsive_process_eq. cbv zeta.
  destruct (answer _ _); reflexivity.
Qed.

Lemma responsive_feed_history (msgs : list Message) (l : ResponsiveLayer.t) (w : World) :
  (length (ResponsiveLayer.context_history l) ≤ 5)%nat →
  ResponsiveLayer.context_history (feed ResponsiveLayer.process msgs l w).1 =
  last_n 5 (ResponsiveLayer.context_history l ++ map (λ m, dict_get m "content" "") msgs).
Proof.
  revert l w. induction msgs as [|m msgs IH]; intros l w Hl; simpl.
  - rewrite app_nil_r. by rewrite last_n_short.
  - rewrite IH.
    + rewrite responsive_process_history. unfold responsive_history.
      rewrite last_n_last_n_app, <- app_assoc. reflexivity.
    + rewrite responsive_process_history. apply last_n_length.
Qed.

Lemma responsive_process_static (msg : Message) (l : ResponsiveLayer.t) (w : World) :
  let l' := self_of (ResponsiveLayer.process msg l w) in
  ResponsiveLayer.system_prompt l' = ResponsiveLayer.system_prompt l ∧
  OllamaClient.name (ResponsiveLayer.ollama l') = OllamaClient.name (ResponsiveLayer.ollama l) ∧
  ResponsiveLayer.super l' = ResponsiveLayer.super l.
Proof.
  rewrite responsive_process_eq. cbv zeta.
  destruct (answer _ _); repeat split.
Qed.

Lemma responsive_feed_static (msgs : list Message) (l : ResponsiveLayer.t) (w : World) :
  let l' := (feed ResponsiveLayer.process msgs l w).1 in
  ResponsiveLayer.system_prompt l' = ResponsiveLayer.system_prompt l ∧
  OllamaClient.name (ResponsiveLayer.ollama l') = OllamaClient.name (ResponsiveLayer.ollama l) ∧
  ResponsiveLayer.super l' = ResponsiveLayer.super l.
Proof.
  revert l w. induction msgs as [|m msgs IH]; intros l w; simpl; [done|].
  destruct (IH (self_of (ResponsiveLayer.process m l w))
               (world_of (ResponsiveLayer.process m l w))) as (H1 & H2 & H3).
  destruct (responsive_process_static m l w) as (K1 & K2 & K3).
  simpl in *. rewrite H1, H2, H3. done.
Qed.

(** C6. After any sequence of calls to the Responsive stage's [process]
    the history holds at most 5 entries, namely the last 5 contents
    processed; and in each further call the content of the message is in
    the history, as its last element, when the prompt sent to the backend
    is built, and is still its last element when the call is over. *)
Theorem responsive_history_bounded
    (p : Producer.t) (c : Consumer.t) (o : OllamaClient.t) (w : World)
    (msgs : list Message) (msg : Message) :
  let contents := map (λ m, dict_get m "content" "") msgs in
  let content := dict_get msg "content" "" in
  let before := feed ResponsiveLayer.process msgs (ResponsiveLayer.init p c o) w in
  let after := ResponsiveLayer.process msg before.1 before.2 in
  let history := ResponsiveLayer.context_history (self_of after) in
  (length (ResponsiveLayer.context_history before.1) ≤ 5)%nat ∧
  ResponsiveLayer.context_history before.1 = last_n 5 contents ∧
  (length history ≤ 5)%nat ∧
  history = last_n 5 (contents ++ [content]) ∧
  last history = Some content ∧
  ∃ rest,
    trace (world_of after) =
    trace before.2 ++
      [ EvTime (reading before.2 0);
        EvChat (OllamaClient.name o)
          (chat_request ResponsiveLayer.SYSTEM_PROMPT
             (ResponsiveLayer.context_prompt history content)
             {| temperature := 7 # 10; num_predict := Some 100 |}) ] ++ rest.
Proof.
  intros contents content before after history.
  assert (Hbefore : ResponsiveLayer.context_history before.1 = last_n 5 contents).
  { unfold before. rewrite responsive_feed_history; [reflexivity | simpl; lia]. }
  assert (Hhist : history = responsive_history before.1 msg).
  { unfold history, after. apply responsive_process_history. }
  assert (Hlast : history = last_n 5 (contents ++ [content])).
  { rewrite Hhist. unfold responsive_history. rewrite Hbefore. apply last_n_last_n_app. }
  split; [rewrite Hbefore; apply last_n_length|].
  split; [exact Hbefore|].
  split; [rewrite Hlast; apply last_n_length|].
  split; [exact Hlast|].
  split; [rewrite Hlast; apply last_n_last; lia|].
  destruct (responsive_feed_static msgs (ResponsiveLayer.init p c o) w)
    as (Hprompt & Hname & _).
  fold before in Hprompt, Hname. simpl in Hprompt, Hname.
  unfold after at 1. rewrite responsive_process_trace. cbv zeta.
  unfold advance, stage_events, responsive_request. simpl trace.
  rewrite Hname, Hprompt, <- Hhist.
  eexists. reflexivity.
Qed.

(** C10. When the Responsive stage's backend call raises, [process]
    raises, yet the content of the message has already been appended to
    the history and stays there, as its last element; the Reflective stage,
    by contrast, leaves its pattern list as it was when its backend call
    raises. *)
Theorem responsive_failure_keeps_content
    (msg : Message) (l : ResponsiveLayer.t) (w : World) (cause : string) :
  answer (ResponsiveLayer.ollama l) (responsive_request l msg) = ChatErr cause →
  let o := ResponsiveLayer.process msg l w in
  let content := dict_get msg "content" "" in
  let history := ResponsiveLayer.context_history (self_of o) in
  res_of o = Raise (stage_error "Responsive" cause) ∧
  history = last_n 5 (ResponsiveLayer.context_history l ++ [content]) ∧
  last history = Some content ∧
  ((length (ResponsiveLayer.context_history l) < 5)%nat →
   history = ResponsiveLayer.context_history l ++ [content]) ∧
  ∀ (l' : ReflectiveLayer.t) (w' : World) (cause' : string),
    answer (ReflectiveLayer.ollama l') (reflective_request l' msg) = ChatErr cause' →
    ReflectiveLayer.learned_patterns (self_of (ReflectiveLayer.process msg l' w')) =
    ReflectiveLayer.learned_patterns l'.
Proof.
  intros Hans o content history.
  assert (Hhist : history = last_n 5 (ResponsiveLayer.context_history l ++ [content])).
  { unfold history, o. apply responsive_process_history. }
  split.
  { unfold o. rewrite responsive_process_eq. cbv zeta. rewrite Hans. reflexivity. }
  split; [exact Hhist|].
  split; [rewrite Hhist; apply last_n_last; lia|].
  split.
  { intros Hlen. rewrite Hhist. apply last_n_short. rewrite length_app. simpl. lia. }
  intros l' w' cause' Hans'.
  rewrite reflective_process_eq. cbv zeta. rewrite Hans'. reflexivity.
Qed.

Lemma responsive_failure_keeps_content_witness :
  let o := ResponsiveLayer.process msg0 failing_responsive world0 in
  res_of o = Raise (stage_error "Responsive" "backend down") ∧
  ResponsiveLayer.context_history (self_of o) = ["test input"].
Proof.
  destruct (responsive_failure_keeps_content msg0 failing_responsive world0 "backend down")
    as (Hres & Hhist & _).
  - reflexivity.
  - split; [exact Hres | exact Hhist].
Defined.

(** ** The Reflective stage's patterns *)

Lemma reflective_process_static (msg : Message) (l : ReflectiveLayer.t) (w : World) :
  let l' := self_of (ReflectiveLayer.process msg l w) in
  ReflectiveLayer.system_prompt l' = ReflectiveLayer.system_prompt l ∧
  OllamaClient.name (ReflectiveLayer.ollama l') = OllamaClient.name (ReflectiveLayer.ollama l) ∧
  ReflectiveLayer.super l' = ReflectiveLayer.super l.
Proof.
  rewrite reflective_process_eq. cbv zeta.
  destruct (answer _ _); repeat split.
Qed.

Lemma reflective_feed_static (msgs : list Message) (l : ReflectiveLayer.t) (w : World) :
  let l' := (feed ReflectiveLayer.process msgs l w).1 in
  ReflectiveLayer.system_prompt l' = ReflectiveLayer.system_prompt l ∧
  OllamaClient.name (ReflectiveLayer.ollama l') = OllamaClient.name (ReflectiveLayer.ollama l) ∧
  ReflectiveLayer.super l' = ReflectiveLayer.super l.
Proof.
  revert l w. induction msgs as [|m msgs IH]; intros l w; simpl; [done|].
  destruct (IH (self_of (ReflectiveLayer.process m l w))
               (world_of (ReflectiveLayer.process m l w))) as (H1 & H2 & H3).
  destruct (reflective_process_static m l w) as (K1 & K2 & K3).
  simpl in *. rewrite H1, H2, H3. done.
Qed.

(** One call: the list grows by the answer, or stays. *)
Lemma reflective_process_patterns (msg : Message) (l : ReflectiveLayer.t) (w : World) :
  let o := ReflectiveLayer.process msg l w in
  match answer (ReflectiveLayer.ollama l) (reflective_request l msg) with
  | ChatOk text =>
      ReflectiveLayer.learned_patterns (self_of o) =
      ReflectiveLayer.learned_patterns l ++ [text] ∧
      ∃ r, res_of o = Ok r ∧
           r !! "patterns" =
           Some (VList (last_n 3 (ReflectiveLayer.learned_patterns l ++ [text])))
  | ChatErr cause =>
      ReflectiveLayer.learned_patterns (self_of o) = ReflectiveLayer.learned_patterns l ∧
      res_of o = Raise (stage_error "Reflective" cause)
  end.
Proof.
  rewrite reflective_process_eq. cbv zeta.
  destruct (answer _ _) as [text|cause]; simpl; split; try reflexivity.
  eexists; split; [reflexivity|].
  rewrite dict_update_lookup, timing_lookup_other by set_solver.
  by simplify_map_eq.
Qed.

Lemma reflective_feed_length (msgs : list Message) (l : ReflectiveLayer.t) (w : World) :
  length (ReflectiveLayer.learned_patterns (feed ReflectiveLayer.process msgs l w).1) =
  (length (ReflectiveLayer.learned_patterns l) +
   successes ReflectiveLayer.process msgs l w)%nat.
Proof.
  revert l w. induction msgs as [|m msgs IH]; intros l w; simpl; [lia|].
  rewrite IH. pose proof (reflective_process_patterns m l w) as Hstep. cbv zeta in Hstep.
  destruct (answer _ _).
  - destruct Hstep as (Hp & r & Hr & _). rewrite Hp, Hr, length_app. simpl. lia.
  - destruct Hstep as (Hp & Hr). rewrite Hp, Hr. lia.
Qed.

Lemma reflective_process_trace (msg : Message) (l : ReflectiveLayer.t) (w : World) :
  world_of (ReflectiveLayer.process msg l w) =
  let ans := answer (ReflectiveLayer.ollama l) (reflective_request l msg) in
  advance (stage_reads ans)
    (stage_events (OllamaClient.name (ReflectiveLayer.ollama l))
       (reflective_request l msg) ans w) w.
Proof.
  rewrite reflective_process_eq. cbv zeta.
  destruct (answer _ _); reflexivity.
Qed.

(** C7. The Reflective stage appends to its pattern list only the answer
    of a backend call that succeeded: when the call raises, [process]
    raises and the list is what it was; when it answers, the list is the
    old one followed by the answer.  The request itself was built from the
    old list. *)
Theorem reflective_appends_after_success
    (msg : Message) (l : ReflectiveLayer.t) (w : World) :
  let o := ReflectiveLayer.process msg l w in
  let patterns := ReflectiveLayer.learned_patterns l in
  match answer (ReflectiveLayer.ollama l) (reflective_request l msg) with
  | ChatErr cause =>
      res_of o = Raise (stage_error "Reflective" cause) ∧
      ReflectiveLayer.learned_patterns (self_of o) = patterns
  | ChatOk text =>
      (∃ r, res_of o = Ok r) ∧
      ReflectiveLayer.learned_patterns (self_of o) = patterns ++ [text]
  end ∧
  ∃ rest,
    trace (world_of o) =
    trace w ++
      [ EvTime (reading w 0);
        EvChat (OllamaClient.name (ReflectiveLayer.ollama l))
          (chat_request (ReflectiveLayer.system_prompt l)
             (ReflectiveLayer.analysis_prompt (join NL (last_n 3 patterns))
                (dict_get msg "content" ""))
             {| temperature := 7 # 10; num_predict := None |}) ] ++ rest.
Proof.
  intros o patterns. split.
  - pose proof (reflective_process_patterns msg l w) as Hstep. cbv zeta in Hstep.
    destruct (answer _ _).
    + destruct Hstep as (Hp & r & Hr & _). split; [by exists r | exact Hp].
    + destruct Hstep as (Hp & Hr). split; [exact Hr | exact Hp].
  - unfold o. rewrite reflective_process_trace. cbv zeta.
    eexists. reflexivity.
Qed.

(** ** One round of the orchestrator, computed *)

#[local] Arguments NOVA.flush_all : simpl never.
#[local] Arguments ReactiveLayer.process : simpl never.
#[local] Arguments ResponsiveLayer.process : simpl never.
#[local] Arguments ReflectiveLayer.process : simpl never.

Lemma process_message_eq (msg : Message) (n : NOVA.t) (w : World) :
  let w0 := advance 1 [EvTime (reading w 0)] w in
  let o1 := ReactiveLayer.process msg (NOVA.reactive n) w0 in
  let o2 := ResponsiveLayer.process msg (NOVA.responsive n) (world_of o1) in
  let o3 := ReflectiveLayer.process msg (NOVA.reflective n) (world_of o2) in
  let results : gmap string dict :=
    <["reflective" := stage_entry "reflective" (res_of o3)]>
      (<["responsive" := stage_entry "responsive" (res_of o2)]>
         (<["reactive" := stage_entry "reactive" (res_of o1)]> ∅)) in
  let n3 := {| NOVA.reactive := self_of o1; NOVA.responsive := self_of o2;
               NOVA.reflective := self_of o3 |} in
  let f := NOVA.flush_all n3 (world_of o3) in
  NOVA.process_message msg n w =
  match res_of f with
  | Ok _ => (Ok results, self_of f, advance 1 [EvTime (reading (world_of f) 0)] (world_of f))
  | Raise e => (Raise e, self_of f, world_of f)
  end.
Proof.
  intros w0 o1 o2 o3 results n3 f.
  unfold NOVA.process_message, NOVA.tasks, NOVA.await_all.
  unfold_M. cbn.
  change {| clock := clock w; ticks := Datatypes.S (ticks w);
            trace := trace w ++ [EvTime (clock w (ticks w))] |} with w0.
  subst results n3 f o3 o2 o1. unfold res_of, self_of, world_of.
  destruct (ReactiveLayer.process msg (NOVA.reactive n) w0) as [[[r1|e1] s1] w1]; cbn;
  destruct (ResponsiveLayer.process msg (NOVA.responsive n) w1) as [[[r2|e2] s2] w2]; cbn;
  destruct (ReflectiveLayer.process msg (NOVA.reflective n) w2) as [[[r3|e3] s3] w3]; cbn;
  unfold NOVA.set_reflective, NOVA.set_responsive, NOVA.set_reactive; cbn;
  match goal with
  | |- context [NOVA.flush_all ?n3 w3] => destruct (NOVA.flush_all n3 w3) as [[[[]|e] s4] w4]
  end; cbn; reflexivity.
Qed.

Lemma flush_all_spec (n : NOVA.t) (w : World) :
  let attempts := flush_attempts (producers n) in
  res_of (NOVA.flush_all n w) =
    match attempts.2 with
    | Some fault => Raise (ExternalError fault)
    | None => Ok tt
    end ∧
  world_of (NOVA.flush_all n w) = advance 0 attempts.1 w.
Proof.
  unfold NOVA.flush_all, for_each, flush_producer, Producer.flush, emit, producers,
    flush_attempts, advance, res_of, world_of.
  unfold_M. cbn.
  destruct (Producer.faults (NOVALayer.producer (ReactiveLayer.super (NOVA.reactive n))) _);
    cbn; [split; reflexivity|].
  destruct (Producer.faults (NOVALayer.producer (ResponsiveLayer.super (NOVA.responsive n))) _);
    cbn; [split; [reflexivity | by rewrite <- !app_assoc]|].
  destruct (Producer.faults (NOVALayer.producer (ReflectiveLayer.super (NOVA.reflective n))) _);
    cbn; split; (reflexivity || by rewrite <- !app_assoc).
Qed.

Lemma backend_answer_eq (msg : Message) (n : NOVA.t) :
  backend_answer "reactive" msg n =
    answer (ReactiveLayer.ollama (NOVA.reactive n)) (reactive_request (NOVA.reactive n) msg) ∧
  backend_answer "responsive" msg n =
    answer (ResponsiveLayer.ollama (NOVA.responsive n))
      (responsive_request (NOVA.responsive n) msg) ∧
  backend_answer "reflective" msg n =
    answer (ReflectiveLayer.ollama (NOVA.reflective n))
      (reflective_request (NOVA.reflective n) msg).
Proof. repeat split. Qed.

(** A round, in full: what [process_message] returns or raises, and the
    external calls it makes, in order. *)
Lemma process_message_spec (msg : Message) (n : NOVA.t) (w : World) :
  let o := NOVA.process_message msg n w in
  let attempts := flush_attempts (producers n) in
  res_of o =
    match attempts.2 with
    | Some fault => Raise (ExternalError fault)
    | None => Ok (round_results msg n w)
    end ∧
  trace (world_of o) =
    trace w ++ [EvTime (reading w 0)] ++ round_stage_events msg n w ++ attempts.1 ++
    match attempts.2 with
    | Some _ => []
    | None => [EvTime (reading w (1 + round_reads msg n))]
    end.
Proof.
  intros o attempts. subst o. rewrite process_message_eq. cbv zeta.
  match goal with
  | |- context [NOVA.flush_all ?n3 ?w3] =>
      destruct (flush_all_spec n3 w3) as [Hres Hworld];
      assert (Hprod : producers n3 = producers n)
  end.
  { rewrite reactive_process_eq, responsive_process_eq, reflective_process_eq. cbv zeta.
    destruct (answer (ReactiveLayer.ollama _) _), (answer (ResponsiveLayer.ollama _) _),
      (answer (ReflectiveLayer.ollama _) _); reflexivity. }
  cbv zeta in Hres, Hworld. rewrite Hprod in Hres, Hworld. fold attempts in Hres, Hworld.
  rewrite Hres, Hworld. clear Hres Hworld Hprod.
  unfold round_results, round_stage_events, round_reads, round_entry.
  destruct (backend_answer_eq msg n) as (-> & -> & ->).
  rewrite reactive_process_eq, responsive_process_eq, reflective_process_eq. cbv zeta.
  destruct attempts as [evs [fault|]]; cbn [fst snd];
  destruct (answer (ReactiveLayer.ollama _) _), (answer (ResponsiveLayer.ollama _) _),
    (answer (ReflectiveLayer.ollama _) _); cbn; split; try reflexivity.
  all: rewrite <- ?app_assoc, ?app_nil_r; cbn; reflexivity.
Qed.

(** C3, as the code has it.  The list [learned_patterns] is never
    truncated: after any sequence of calls it holds one entry per call that
    succeeded.  What never exceeds 3 entries is the window
    [learned_patterns[-3:]] that a call puts in its prompt and returns as
    ["patterns"]: it holds the most recent patterns, and a new pattern
    pushes the oldest one out of it. *)
Theorem reflective_window_bounded
    (p : Producer.t) (c : Consumer.t) (o : OllamaClient.t) (w : World)
    (msgs : list Message) (msg : Message) :
  let start := ReflectiveLayer.init p c o in
  let before := feed ReflectiveLayer.process msgs start w in
  let patterns := ReflectiveLayer.learned_patterns before.1 in
  let after := ReflectiveLayer.process msg before.1 before.2 in
  length patterns = successes ReflectiveLayer.process msgs start w ∧
  (length (last_n 3 patterns) ≤ 3)%nat ∧
  (∃ rest,
     trace (world_of after) =
     trace before.2 ++
       [ EvTime (reading before.2 0);
         EvChat (OllamaClient.name o)
           (chat_request ReflectiveLayer.SYSTEM_PROMPT
              (ReflectiveLayer.analysis_prompt (join NL (last_n 3 patterns))
                 (dict_get msg "content" ""))
              {| temperature := 7 # 10; num_predict := None |}) ] ++ rest) ∧
  match answer (ReflectiveLayer.ollama before.1) (reflective_request before.1 msg) with
  | ChatOk text =>
      ReflectiveLayer.learned_patterns (self_of after) = patterns ++ [text] ∧
      (∃ r, res_of after = Ok r ∧
            r !! "patterns" = Some (VList (last_n 3 (patterns ++ [text])))) ∧
      (length (last_n 3 (patterns ++ [text])) ≤ 3)%nat ∧
      last_n 3 (patterns ++ [text]) = last_n 3 (last_n 3 patterns ++ [text])
  | ChatErr _ =>
      ReflectiveLayer.learned_patterns (self_of after) = patterns
  end.
Proof.
  intros start before patterns after.
  split.
  { unfold patterns, before. rewrite reflective_feed_length. reflexivity. }
  split; [apply last_n_length|].
  split.
  { destruct (reflective_feed_static msgs start w) as (Hprompt & Hname & _).
    fold before in Hprompt, Hname. simpl in Hprompt, Hname.
    unfold after. rewrite reflective_process_trace. cbv zeta.
    unfold advance, stage_events, reflective_request. simpl trace.
    rewrite Hname, Hprompt. eexists. reflexivity. }
  pose proof (reflective_process_patterns msg before.1 before.2) as Hstep.
  cbv zeta in Hstep. fold after patterns in Hstep.
  destruct (answer _ _).
  - destruct Hstep as (Hp & Hr). split; [exact Hp|]. split; [exact Hr|].
    split; [apply last_n_length|]. symmetry. apply last_n_snoc. lia.
  - apply Hstep.
Qed.

(** C3, as stated, fails: four successful calls leave four patterns in
    the list. *)
Lemma reflective_patterns_exceed_3 :
  let l := (feed ReflectiveLayer.process [msg0; msg0; msg0; msg0]
              learning_reflective world0).1 in
  ReflectiveLayer.learned_patterns l = ["a pattern"; "a pattern"; "a pattern"; "a pattern"] ∧
  ¬ (length (ReflectiveLayer.learned_patterns l) ≤ 3)%nat.
Proof.
  assert (H : ReflectiveLayer.learned_patterns
                (feed ReflectiveLayer.process [msg0; msg0; msg0; msg0]
                   learning_reflective world0).1 =
              ["a pattern"; "a pattern"; "a pattern"; "a pattern"]) by (vm_compute; reflexivity).
  cbv zeta. rewrite H. split; [reflexivity | simpl; lia].
Qed.

(** ** The orchestrator's round *)

Lemma flush_attempts_sound (ps : list Producer.t) :
  Forall sound ps →
  (flush_attempts ps).2 = None ∧
  (flush_attempts ps).1 = map (λ p, EvFlush (Producer.name p)) ps.
Proof.
  induction 1 as [|p ps Hp _ [IH1 IH2]]; simpl; [done|].
  unfold sound in Hp. rewrite Hp.
  destruct (flush_attempts ps) as [evs fault]. simpl in *. by subst.
Qed.



Lemma round_results_lookup (msg : Message) (n : NOVA.t) (w : World) :
  let a1 := backend_answer "reactive" msg n in
  let a2 := backend_answer "responsive" msg n in
  round_results msg n w !! "reactive" =
    Some (round_entry "reactive" msg n (advance 1 [] w)) ∧
  round_results msg n w !! "responsive" =
    Some (round_entry "responsive" msg n (advance (1 + stage_reads a1) [] w)) ∧
  round_results msg n w !! "reflective" =
    Some (round_entry "reflective" msg n
            (advance (1 + stage_reads a1 + stage_reads a2) [] w)).
Proof. unfold round_results. repeat split; by simplify_map_eq. Qed.

Lemma round_results_dom (msg : Message) (n : NOVA.t) (w : World) :
  dom (round_results msg n w) = ({[ "reactive"; "responsive"; "reflective" ]} : gset string).
Proof. unfold round_results. rewrite !dom_insert_L, dom_empty_L. set_solver. Qed.

Lemma round_results_size (msg : Message) (n : NOVA.t) (w : World) :
  size (round_results msg n w) = 3%nat.
Proof.
  unfold round_results.
  rewrite !map_size_insert_None, map_size_empty; [reflexivity | by simplify_map_eq..].
Qed.

(** The entry of a stage whose backend raised. *)
Lemma round_entry_error (name : string) (msg : Message) (n : NOVA.t) (w : World)
    (cause : string) :
  backend_answer name msg n = ChatErr cause →
  round_entry name msg n w =
  {[ "type" := VStr (name +:+ "_error");
     "content" := VStr ("Layer processing failed: " +:+ stage_label name +:+
                        " processing failed: " +:+ cause) ]}.
Proof. intros Hans. unfold round_entry. rewrite Hans. reflexivity. Qed.


(** C1, as the code has it.  Whenever the post-round flush raises nothing,
    [process_message] returns a mapping with exactly the three keys
    ['reactive'], ['responsive'] and ['reflective'], however many stages
    failed; the entry of a failed stage is the tagged error value
    [{type: "<stage>_error", content: ...}], not a missing key. *)
Theorem process_message_cardinality (msg : Message) (n : NOVA.t) (w : World) :
  Forall sound (producers n) →
  ∃ results : gmap string dict,
    res_of (NOVA.process_message msg n w) = Ok results ∧
    dom results = ({[ "reactive"; "responsive"; "reflective" ]} : gset string) ∧
    size results = 3%nat ∧
    ∀ (name cause : string),
      name ∈ stage_names →
      backend_answer name msg n = ChatErr cause →
      ∃ entry : dict,
        results !! name = Some entry ∧
        dom entry = ({[ "type"; "content" ]} : gset string) ∧
        entry !! "type" = Some (VStr (name +:+ "_error")) ∧
        entry !! "content" =
          Some (VStr ("Layer processing failed: " +:+ stage_label name +:+
                      " processing failed: " +:+ cause)).
Proof.
  intros Hsound.
  destruct (process_message_spec msg n w) as [Hres _]. cbv zeta in Hres.
  destruct (flush_attempts_sound _ Hsound) as [Hnone _]. rewrite Hnone in Hres.
  exists (round_results msg n w).
  split; [exact Hres|]. split; [apply round_results_dom|].
  split; [apply round_results_size|].
  intros name cause Hin Hans.
  destruct (round_results_lookup msg n w) as (L1 & L2 & L3).
  unfold stage_names in Hin.
  repeat (apply elem_of_cons in Hin as [->|Hin]); [| | |by apply elem_of_nil in Hin].
  all: eexists; split; [eassumption|].
  all: rewrite (round_entry_error _ _ _ _ _ Hans).
  all: split; [rewrite dom_insert_L, dom_singleton_L; set_solver|].
  all: split; by simplify_map_eq.
Qed.

Lemma nova_ok_sound : Forall sound (producers nova_ok).
Proof. repeat constructor. Qed.

Lemma nova_reflective_down_sound : Forall sound (producers nova_reflective_down).
Proof. repeat constructor. Qed.

Lemma process_message_cardinality_witness :
  ∃ results : gmap string dict,
    res_of (NOVA.process_message msg0 nova_reflective_down world0) = Ok results ∧
    size results = 3%nat.
Proof.
  destruct (process_message_cardinality msg0 nova_reflective_down world0
              nova_reflective_down_sound) as (results & Hres & _ & Hsize & _).
  exists results. split; [exact Hres | exact Hsize].
Defined.

(** C1, as stated, fails: when a producer's flush raises, [process_message]
    raises and returns no mapping, although every stage succeeded. *)
Lemma process_message_raises_on_flush_fault :
  res_of (NOVA.process_message msg0 nova_broker_down world0) =
    Raise (ExternalError "broker unreachable") ∧
  ¬ ∃ results : gmap string dict,
      res_of (NOVA.process_message msg0 nova_broker_down world0) = Ok results.
Proof.
  assert (H : res_of (NOVA.process_message msg0 nova_broker_down world0) =
              Raise (ExternalError "broker unreachable")).
  { destruct (process_message_spec msg0 nova_broker_down world0) as [Hres _].
    exact Hres. }
  split; [exact H|]. intros [results Hok]. rewrite H in Hok. discriminate.
Qed.



(** C4, against the code.  The three coroutine objects are awaited one
    after the other, so the stages do not overlap: in every round the
    external calls are the reactive stage's (start reading, chat call, end
    reading), then the responsive stage's, then the reflective stage's.  In
    the round of [msg0] on [nova_ok], whose clock advances by 10 at each
    reading, the reactive stage runs over [110, 120], the responsive stage
    over [130, 140] and the reflective stage over [150, 160]. *)
Theorem process_message_runs_stages_in_turn :
  (∀ (msg : Message) (n : NOVA.t) (w : World),
     let a1 := backend_answer "reactive" msg n in
     let a2 := backend_answer "responsive" msg n in
     let a3 := backend_answer "reflective" msg n in
     ∃ rest,
       trace (world_of (NOVA.process_message msg n w)) =
       trace w ++ [EvTime (reading w 0)] ++
       stage_events (OllamaClient.name (ReactiveLayer.ollama (NOVA.reactive n)))
         (reactive_request (NOVA.reactive n) msg) a1 (advance 1 [] w) ++
       stage_events (OllamaClient.name (ResponsiveLayer.ollama (NOVA.responsive n)))
         (responsive_request (NOVA.responsive n) msg) a2
         (advance (1 + stage_reads a1) [] w) ++
       stage_events (OllamaClient.name (ReflectiveLayer.ollama (NOVA.reflective n)))
         (reflective_request (NOVA.reflective n) msg) a3
         (advance (1 + stage_reads a1 + stage_reads a2) [] w) ++
       rest) ∧
  (∃ (results : gmap string dict) (reactive responsive reflective : dict),
     res_of (NOVA.process_message msg0 nova_ok world0) = Ok results ∧
     results !! "reactive" = Some reactive ∧
     results !! "responsive" = Some responsive ∧
     results !! "reflective" = Some reflective ∧
     reactive !! "start_time" = Some (VNum 110) ∧
     reactive !! "end_time" = Some (VNum 120) ∧
     responsive !! "start_time" = Some (VNum 130) ∧
     responsive !! "end_time" = Some (VNum 140) ∧
     reflective !! "start_time" = Some (VNum 150) ∧
     reflective !! "end_time" = Some (VNum 160)).
Proof.
  split.
  - intros msg n w a1 a2 a3.
    destruct (process_message_spec msg n w) as [_ Htrace]. cbv zeta in Htrace.
    rewrite Htrace. unfold round_stage_events. fold a1 a2 a3.
    eexists. rewrite <- !app_assoc. reflexivity.
  - destruct (process_message_spec msg0 nova_ok world0) as [Hres _]. cbv zeta in Hres.
    destruct (flush_attempts_sound _ nova_ok_sound) as [Hnone _]. rewrite Hnone in Hres.
    destruct (round_results_lookup msg0 nova_ok world0) as (L1 & L2 & L3).
    do 4 eexists. split; [exact Hres|].
    split; [exact L1|]. split; [exact L2|]. split; [exact L3|].
    repeat split; reflexivity.
Qed.





(** ** Closing a layer, and publishing *)

Lemma close_eq (l : NOVALayer.t) (w : World) :
  let p := NOVALayer.producer l in
  let c := NOVALayer.consumer l in
  NOVALayer.close l w =
  match Producer.faults p (Producer.ops p) with
  | Some fault =>
      (Raise (ExternalError fault),
       NOVALayer.set_producer (Producer.step p (Producer.pending p) (Producer.delivered p)) l,
       advance 0 [EvFlush (Producer.name p)] w)
  | None =>
      (Ok tt,
       {| NOVALayer.producer :=
            Producer.step p [] (Producer.delivered p ++ Producer.pending p);
          NOVALayer.consumer :=
            {| Consumer.name := Consumer.name c; Consumer.closed := true |} |},
       advance 0 [EvFlush (Producer.name p); EvConsumerClose (Consumer.name c)] w)
  end.
Proof.
  unfold NOVALayer.close, Producer.flush, Consumer.close, emit, advance.
  unfold_M. cbn.
  destruct (Producer.faults _ _); cbn; rewrite ?app_snoc; reflexivity.
Qed.

Lemma publish_eq (topic : string) (message : dict) (l : NOVALayer.t) (w : World) :
  let p := NOVALayer.producer l in
  NOVALayer.publish topic message l w =
  match Producer.faults p (Producer.ops p) with
  | Some fault =>
      (Raise (KafkaPublishError ("Failed to publish message to Kafka: " +:+ fault)
                (Some (ExternalError fault))),
       NOVALayer.set_producer (Producer.step p (Producer.pending p) (Producer.delivered p)) l,
       advance 0 [EvProduce (Producer.name p) topic message] w)
  | None =>
      (Ok tt,
       NOVALayer.set_producer
         (Producer.step p (Producer.pending p ++ [(topic, message)]) (Producer.delivered p)) l,
       advance 0 [EvProduce (Producer.name p) topic message] w)
  end.
Proof.
  unfold NOVALayer.publish, Producer.produce, Producer.poll, emit, advance.
  unfold_M. cbn.
  destruct (Producer.faults _ _); cbn; reflexivity.
Qed.




Lemma world0_monotone : clock_monotone world0.
Proof. intros i j Hij. simpl. lia. Qed.

Lemma timed_process_timing_witness :
  ∃ r : dict,
    res_of (ReactiveLayer.process msg0 (NOVA.reactive nova_ok) world0) = Ok r ∧
    r !! "start_time" = Some (VNum 100) ∧
    r !! "end_time" = Some (VNum 110) ∧
    r !! "processing_duration" = Some (VNum (110 - 100)) ∧
    100 ≤ 110.
Proof.
  pose (r := dict_update {[ "type" := VStr "reactive_response"; "content" := VStr "act";
                            "source" := VStr MODEL_NAME ]} (timing 100 110)).
  destruct (timed_process_timing ReactiveLayer.process_body msg0
              (NOVA.reactive nova_ok) world0 r)
    as (H1 & H2 & H3 & Hle & _).
  - reflexivity.
  - exists r. split; [reflexivity|].
    split; [exact H1|]. split; [exact H2|]. split; [exact H3|].
    exact (Hle world0_monotone (keeps_clock_reactive msg0)).
Defined.

(** C5, as stated, fails: [time.time()] is the wall clock.  When it steps
    back between the two readings, a successful call returns an [end_time]
    below its [start_time], and a negative duration. *)
Lemma timed_process_backward_clock :
  ∃ r : dict,
    res_of (ReactiveLayer.process msg0 (NOVA.reactive nova_ok) world_backward) = Ok r ∧
    r !! "start_time" = Some (VNum 110) ∧
    r !! "end_time" = Some (VNum 100) ∧
    r !! "processing_duration" = Some (VNum (-10)) ∧
    ¬ (100 ≥ 110).
Proof.
  eexists. split; [reflexivity|].
  repeat split; try reflexivity. lia.
Qed.

(** * Further properties of the code *)

(** ** [timed_process], when the wrapped function raises *)

(** X1. When the wrapped function raises [e], the wrapper raises
    [NOVALayerError("Layer processing failed: " + str(e))] with [e] as its
    cause; it returns no result, reads the clock no second time, and keeps
    whatever the function had changed before raising. *)
Theorem timed_process_failure {S} `{Layer S}
    (func : Message -> M S pyobj) (msg : Message) (s : S) (w : World) (e : exn) :
  res_of (func msg s (world_of (time_time s w))) = Raise e →
  let inner := func msg s (world_of (time_time s w)) in
  let o := timed_process func msg s w in
  res_of o = Raise (NOVALayerError ("Layer processing failed: " +:+ str e) (Some e)) ∧
  self_of o = self_of inner ∧
  world_of o = world_of inner ∧
  trace (world_of (time_time s w)) = trace w ++ [EvTime (reading w 0)].
Proof.
  intros Hraise inner o. subst inner o.
  unfold timed_process. unfold_M. unfold res_of, self_of, world_of in *. cbn in *.
  destruct (func msg s _) as [[[r|e'] s'] w']; cbn in *; [discriminate|].
  inversion Hraise; subst e'. repeat split.
Qed.

Lemma timed_process_failure_witness :
  let o := timed_process ReactiveLayer.process_body msg0
             (NOVA.reactive (mk_nova no_faults no_faults no_faults
                               (never "boom") (always "b") (always "c"))) world0 in
  res_of o =
    Raise (NOVALayerError "Layer processing failed: Reactive processing failed: boom"
             (Some (NOVALayerError "Reactive processing failed: boom" None))) ∧
  ticks (world_of o) = 1%nat.
Proof.
  destruct (timed_process_failure ReactiveLayer.process_body msg0
              (NOVA.reactive (mk_nova no_faults no_faults no_faults
                                (never "boom") (always "b") (always "c"))) world0
              (NOVALayerError "Reactive processing failed: boom" None))
    as (Hres & _ & Hworld & _).
  - reflexivity.
  - cbv zeta. split; [exact Hres|]. rewrite Hworld. reflexivity.
Defined.

(** ** The Reactive stage *)

Lemma reactive_process_self (msg : Message) (l : ReactiveLayer.t) (w : World) :
  self_of (ReactiveLayer.process msg l w) =
  ReactiveLayer.set_ollama (called (ReactiveLayer.ollama l)) l.
Proof.
  rewrite reactive_process_eq. cbv zeta. destruct (answer _ _); reflexivity.
Qed.

Lemma reactive_feed_static (msgs : list Message) (l : ReactiveLayer.t) (w : World) :
  let after := (feed ReactiveLayer.process msgs l w).1 in
  ReactiveLayer.super after = ReactiveLayer.super l ∧
  ReactiveLayer.system_prompt after = ReactiveLayer.system_prompt l ∧
  OllamaClient.name (ReactiveLayer.ollama after) = OllamaClient.name (ReactiveLayer.ollama l) ∧
  OllamaClient.answers (ReactiveLayer.ollama after) =
    OllamaClient.answers (ReactiveLayer.ollama l) ∧
  OllamaClient.calls (ReactiveLayer.ollama after) =
    (OllamaClient.calls (ReactiveLayer.ollama l) + length msgs)%nat.
Proof.
  revert l w. induction msgs as [|m msgs IH]; intros l w; cbn [feed length].
  - cbv zeta. cbn. repeat split; try reflexivity. lia.
  - specialize (IH (self_of (ReactiveLayer.process m l w))
                   (world_of (ReactiveLayer.process m l w))).
    cbv zeta in IH. rewrite reactive_process_self in IH. cbn in IH.
    destruct IH as (H1 & H2 & H3 & H4 & H5).
    cbv zeta. rewrite reactive_process_self.
    repeat split; try assumption. rewrite H5. lia.
Qed.

Lemma reactive_process_trace (msg : Message) (l : ReactiveLayer.t) (w : World) :
  world_of (ReactiveLayer.process msg l w) =
  let ans := answer (ReactiveLayer.ollama l) (reactive_request l msg) in
  advance (stage_reads ans)
    (stage_events (OllamaClient.name (ReactiveLayer.ollama l))
       (reactive_request l msg) ans w) w.
Proof.
  rewrite reactive_process_eq. cbv zeta. destruct (answer _ _); reflexivity.
Qed.

(** X2. The Reactive stage keeps no memory.  After any sequence of calls,
    answered or not, the layer differs from the initial one only by the
    number of calls its client has received, one per message; and the chat
    call the stage then makes for a message carries the system prompt and
    the content of that message alone, whatever was processed before. *)
Theorem reactive_keeps_no_memory
    (msgs : list Message) (l : ReactiveLayer.t) (w : World) (msg : Message) :
  let before := feed ReactiveLayer.process msgs l w in
  let o := ReactiveLayer.process msg before.1 before.2 in
  ReactiveLayer.super before.1 = ReactiveLayer.super l ∧
  ReactiveLayer.system_prompt before.1 = ReactiveLayer.system_prompt l ∧
  OllamaClient.name (ReactiveLayer.ollama before.1) =
    OllamaClient.name (ReactiveLayer.ollama l) ∧
  OllamaClient.answers (ReactiveLayer.ollama before.1) =
    OllamaClient.answers (ReactiveLayer.ollama l) ∧
  OllamaClient.calls (ReactiveLayer.ollama before.1) =
    (OllamaClient.calls (ReactiveLayer.ollama l) + length msgs)%nat ∧
  ∃ rest,
    trace (world_of o) =
    trace before.2 ++
      [ EvTime (reading before.2 0);
        EvChat (OllamaClient.name (ReactiveLayer.ollama l))
          {| model := "llama3.2:latest";
             messages :=
               [ {| role := "system"; content := ReactiveLayer.system_prompt l |};
                 {| role := "user"; content := dict_get msg "content" "" |} ];
             options := {| temperature := 3 # 10; num_predict := Some 50 |} |} ] ++ rest.
Proof.
  intros before o.
  destruct (reactive_feed_static msgs l w) as (H1 & H2 & H3 & H4 & H5).
  fold before in H1, H2, H3, H4, H5.
  do 5 (split; [assumption|]).
  unfold o. rewrite reactive_process_trace. cbv zeta.
  unfold advance, stage_events, reactive_request, chat_request. simpl trace.
  rewrite H2, H3. eexists. reflexivity.
Qed.

(** ** What a stage returns when its backend answers *)

Lemma dom_timing (t0 t1 : Z) :
  dom (timing t0 t1) = ({[ "start_time"; "end_time"; "processing_duration" ]} : gset string).
Proof. unfold timing. rewrite !dom_insert_L, dom_singleton_L. set_solver. Qed.

Lemma dom_dict_update (d other : dict) : dom (dict_update d other) = dom other ∪ dom d.
Proof. unfold dict_update. apply dom_union_L. Qed.

(** X3. When its backend answers, the Reactive stage returns a dict with
    exactly the keys [type], [content], [source] and the three timing
    fields; [content] is the answer, [type] is ["reactive_response"] and
    [source] is the model name. *)
Theorem reactive_result
    (msg : Message) (l : ReactiveLayer.t) (w : World) (text : string) :
  answer (ReactiveLayer.ollama l) (reactive_request l msg) = ChatOk text →
  ∃ r : dict,
    res_of (ReactiveLayer.process msg l w) = Ok r ∧
    dom r = ({[ "type"; "content"; "source";
                "start_time"; "end_time"; "processing_duration" ]} : gset string) ∧
    r !! "type" = Some (VStr "reactive_response") ∧
    r !! "content" = Some (VStr text) ∧
    r !! "source" = Some (VStr "llama3.2:latest").
Proof.
  intros Hans. rewrite reactive_process_eq. cbv zeta. rewrite Hans.
  eexists. split; [reflexivity|]. split.
  - rewrite dom_dict_update, dom_timing, !dom_insert_L, dom_singleton_L. set_solver.
  - rewrite !dict_update_lookup, !timing_lookup_other by set_solver.
    repeat split; by simplify_map_eq.
Qed.

Lemma reactive_result_witness :
  ∃ r : dict,
    res_of (ReactiveLayer.process msg0 (NOVA.reactive nova_ok) world0) = Ok r ∧
    r !! "content" = Some (VStr "act").
Proof.
  destruct (reactive_result msg0 (NOVA.reactive nova_ok) world0 "act")
    as (r & Hres & _ & _ & Hcontent & _).
  - reflexivity.
  - exists r. split; [exact Hres | exact Hcontent].
Defined.

(** X4. When its backend answers, the Responsive stage returns a dict with
    exactly the keys [type], [content], [context], [source] and the three
    timing fields; [context] is the history the stage holds after the call:
    at most 5 entries, the last of which is the content of the message. *)
Theorem responsive_result
    (msg : Message) (l : ResponsiveLayer.t) (w : World) (text : string) :
  answer (ResponsiveLayer.ollama l) (responsive_request l msg) = ChatOk text →
  let o := ResponsiveLayer.process msg l w in
  let history := ResponsiveLayer.context_history (self_of o) in
  ∃ r : dict,
    res_of o = Ok r ∧
    dom r = ({[ "type"; "content"; "context"; "source";
                "start_time"; "end_time"; "processing_duration" ]} : gset string) ∧
    r !! "type" = Some (VStr "responsive_response") ∧
    r !! "content" = Some (VStr text) ∧
    r !! "source" = Some (VStr "llama3.2:latest") ∧
    r !! "context" = Some (VList history) ∧
    (length history ≤ 5)%nat ∧
    last history = Some (dict_get msg "content" "").
Proof.
  intros Hans o history.
  assert (Hhist : history = responsive_history l msg).
  { unfold history, o. apply responsive_process_history. }
  unfold o. rewrite responsive_process_eq. cbv zeta. rewrite Hans.
  eexists. split; [reflexivity|]. split.
  { rewrite dom_dict_update, dom_timing, !dom_insert_L, dom_singleton_L. set_solver. }
  rewrite !dict_update_lookup, !timing_lookup_other by set_solver.
  rewrite Hhist. unfold responsive_history.
  repeat split; try (by simplify_map_eq).
  - apply last_n_length.
  - apply last_n_last. lia.
Qed.

Lemma responsive_result_witness :
  ∃ r : dict,
    res_of (ResponsiveLayer.process msg0 (NOVA.responsive nova_ok) world0) = Ok r ∧
    r !! "context" = Some (VList ["test input"]).
Proof.
  destruct (responsive_result msg0 (NOVA.responsive nova_ok) world0 "consider")
    as (r & Hres & _ & _ & _ & _ & Hcontext & _).
  - reflexivity.
  - exists r. split; [exact Hres | exact Hcontext].
Defined.

(** X5. When its backend answers, the Reflective stage returns a dict with
    exactly the keys [type], [content], [patterns], [source] and the three
    timing fields; [patterns] holds at most 3 entries and its last entry is
    the answer itself, which is also [content]. *)
Theorem reflective_result
    (msg : Message) (l : ReflectiveLayer.t) (w : World) (text : string) :
  answer (ReflectiveLayer.ollama l) (reflective_request l msg) = ChatOk text →
  ∃ (r : dict) (patterns : list string),
    res_of (ReflectiveLayer.process msg l w) = Ok r ∧
    dom r = ({[ "type"; "content"; "patterns"; "source";
                "start_time"; "end_time"; "processing_duration" ]} : gset string) ∧
    r !! "type" = Some (VStr "reflective_update") ∧
    r !! "content" = Some (VStr text) ∧
    r !! "source" = Some (VStr "llama3.2:latest") ∧
    r !! "patterns" = Some (VList patterns) ∧
    (length patterns ≤ 3)%nat ∧
    last patterns = Some text.
Proof.
  intros Hans. rewrite reflective_process_eq. cbv zeta. rewrite Hans.
  eexists. eexists. split; [reflexivity|]. split.
  { rewrite dom_dict_update, dom_timing, !dom_insert_L, dom_singleton_L. set_solver. }
  rewrite !dict_update_lookup, !timing_lookup_other by set_solver.
  repeat split; try (by simplify_map_eq).
  - apply last_n_length.
  - apply last_n_last. lia.
Qed.

Lemma reflective_result_witness :
  ∃ (r : dict) (patterns : list string),
    res_of (ReflectiveLayer.process msg0 (NOVA.reflective nova_ok) world0) = Ok r ∧
    r !! "patterns" = Some (VList patterns) ∧
    last patterns = Some "learn".
Proof.
  destruct (reflective_result msg0 (NOVA.reflective nova_ok) world0 "learn")
    as (r & patterns & Hres & _ & _ & _ & _ & Hpatterns & _ & Hlast).
  - reflexivity.
  - exists r, patterns. repeat split; assumption.
Defined.

(** ** A message without content *)

(** X6. A message with no ['content'] entry is processed as if its content
    were the empty string: the Reactive stage sends [''] as the user
    message, the Responsive stage appends [''] to its history and sends a
    prompt that ends with ["Current input: "], and the Reflective stage
    fills [''] in its prompt.  No stage raises for the missing key. *)
Theorem missing_content_is_empty
    (msg : Message) (rx : ReactiveLayer.t) (rs : ResponsiveLayer.t)
    (rf : ReflectiveLayer.t) (w : World) :
  msg !! "content" = None →
  let history := last_n 5 (ResponsiveLayer.context_history rs ++ [""]) in
  (∃ rest,
     trace (world_of (ReactiveLayer.process msg rx w)) =
     trace w ++
       [ EvTime (reading w 0);
         EvChat (OllamaClient.name (ReactiveLayer.ollama rx))
           (chat_request (ReactiveLayer.system_prompt rx) ""
              {| temperature := 3 # 10; num_predict := Some 50 |}) ] ++ rest) ∧
  ResponsiveLayer.context_history (self_of (ResponsiveLayer.process msg rs w)) = history ∧
  (∃ rest,
     trace (world_of (ResponsiveLayer.process msg rs w)) =
     trace w ++
       [ EvTime (reading w 0);
         EvChat (OllamaClient.name (ResponsiveLayer.ollama rs))
           (chat_request (ResponsiveLayer.system_prompt rs)
              ("Previous context: " +:+ join " | " history +:+ NL +:+ "Current input: ")
              {| temperature := 7 # 10; num_predict := Some 100 |}) ] ++ rest) ∧
  (∃ rest,
     trace (world_of (ReflectiveLayer.process msg rf w)) =
     trace w ++
       [ EvTime (reading w 0);
         EvChat (OllamaClient.name (ReflectiveLayer.ollama rf))
           (chat_request (ReflectiveLayer.system_prompt rf)
              (ReflectiveLayer.analysis_prompt
                 (join NL (last_n 3 (ReflectiveLayer.learned_patterns rf))) "")
              {| temperature := 7 # 10; num_predict := None |}) ] ++ rest).
Proof.
  intros Hmissing history.
  assert (Hget : dict_get msg "content" "" = "") by (unfold dict_get; by rewrite Hmissing).
  split.
  { rewrite reactive_process_trace. cbv zeta.
    unfold advance, stage_events, reactive_request. rewrite Hget. simpl trace.
    eexists. reflexivity. }
  split.
  { rewrite responsive_process_history. unfold responsive_history. by rewrite Hget. }
  split.
  { rewrite responsive_process_trace. cbv zeta.
    unfold advance, stage_events, responsive_request, responsive_history,
      ResponsiveLayer.context_prompt.
    rewrite Hget. simpl trace. eexists. reflexivity. }
  rewrite reflective_process_trace. cbv zeta.
  unfold advance, stage_events, reflective_request. rewrite Hget. simpl trace.
  eexists. reflexivity.
Qed.

Lemma missing_content_is_empty_witness :
  ResponsiveLayer.context_history
    (self_of (ResponsiveLayer.process {[ "type" := "user_input" ]}
                (NOVA.responsive nova_ok) world0)) = [""].
Proof.
  destruct (missing_content_is_empty {[ "type" := "user_input" ]}
              (NOVA.reactive nova_ok) (NOVA.responsive nova_ok)
              (NOVA.reflective nova_ok) world0) as (_ & Hhist & _).
  - reflexivity.
  - exact Hhist.
Defined.

(** ** Publishing and closing *)

(** X8. When the producer's flush raises in [close], the exception leaves
    [close] before the consumer is closed: the consumer is as it was, and
    nothing pending is lost.  If the flush succeeds when [close] is called
    again, what was pending is then delivered and the consumer closed. *)
Theorem close_failure_leaves_consumer_open
    (l : NOVALayer.t) (w : World) (fault : string) :
  Producer.faults (NOVALayer.producer l) (Producer.ops (NOVALayer.producer l)) = Some fault →
  let p := NOVALayer.producer l in
  let o1 := NOVALayer.close l w in
  let o2 := NOVALayer.close (self_of o1) (world_of o1) in
  res_of o1 = Raise (ExternalError fault) ∧
  NOVALayer.consumer (self_of o1) = NOVALayer.consumer l ∧
  Producer.pending (NOVALayer.producer (self_of o1)) = Producer.pending p ∧
  Producer.delivered (NOVALayer.producer (self_of o1)) = Producer.delivered p ∧
  trace (world_of o1) = trace w ++ [EvFlush (Producer.name p)] ∧
  (Producer.faults p (Datatypes.S (Producer.ops p)) = None →
   res_of o2 = Ok tt ∧
   Producer.delivered (NOVALayer.producer (self_of o2)) =
     Producer.delivered p ++ Producer.pending p ∧
   Producer.pending (NOVALayer.producer (self_of o2)) = [] ∧
   Consumer.closed (NOVALayer.consumer (self_of o2)) = true).
Proof.
  intros Hfault p o1 o2. subst o2 o1 p. rewrite !close_eq. cbv zeta.
  rewrite Hfault. cbn.
  do 5 (split; [reflexivity|]).
  intros Hnext. rewrite Hnext. repeat split.
Qed.

Lemma close_failure_leaves_consumer_open_witness :
  let o1 := NOVALayer.close flaky_layer world0 in
  let o2 := NOVALayer.close (self_of o1) (world_of o1) in
  res_of o1 = Raise (ExternalError "timed out") ∧
  Consumer.closed (NOVALayer.consumer (self_of o1)) = false ∧
  Producer.delivered (NOVALayer.producer (self_of o2)) = [("nova.reactive", payload0)].
Proof.
  destruct (close_failure_leaves_consumer_open flaky_layer world0 "timed out")
    as (Hres & Hconsumer & _ & _ & _ & Hretry).
  - reflexivity.
  - destruct Hretry as (_ & Hdelivered & _); [reflexivity|].
    cbv zeta. split; [exact Hres|]. split; [by rewrite Hconsumer | exact Hdelivered].
Defined.

(** X9. [__del__] never raises: whatever [close] raises is swallowed.  The
    layer and the world are left as [close] left them, so after a flush
    that raised the consumer is still open. *)
Theorem del_never_raises {S} `{Layer S} (s : S) (w : World) :
  res_of (__del__ s w) = Ok tt ∧
  self_of (__del__ s w) = self_of (close s w) ∧
  world_of (__del__ s w) = world_of (close s w).
Proof.
  unfold __del__, try_except, ret, res_of, self_of, world_of.
  destruct (close s w) as [[[[]|e] s'] w']; repeat split.
Qed.

(** ** Closing the orchestrator *)

(** X10. When no producer's flush raises, [NOVA.close] returns after
    flushing each layer's producer and closing its consumer, layer by
    layer in the order reactive, responsive, reflective: every queue is
    empty, everything that was pending is delivered, the three consumers
    are closed, and the history and the patterns are untouched. *)
Theorem nova_close_closes_everything (n : NOVA.t) (w : World) :
  Forall sound (producers n) →
  let o := NOVA.close n w in
  let n' := self_of o in
  res_of o = Ok tt ∧
  Forall (λ p, Producer.pending p = []) (producers n') ∧
  map Producer.delivered (producers n') = map held (producers n) ∧
  Consumer.closed (NOVALayer.consumer (ReactiveLayer.super (NOVA.reactive n'))) = true ∧
  Consumer.closed (NOVALayer.consumer (ResponsiveLayer.super (NOVA.responsive n'))) = true ∧
  Consumer.closed (NOVALayer.consumer (ReflectiveLayer.super (NOVA.reflective n'))) = true ∧
  ResponsiveLayer.context_history (NOVA.responsive n') =
    ResponsiveLayer.context_history (NOVA.responsive n) ∧
  ReflectiveLayer.learned_patterns (NOVA.reflective n') =
    ReflectiveLayer.learned_patterns (NOVA.reflective n) ∧
  trace (world_of o) =
    trace w ++
    [ EvFlush (Producer.name (NOVALayer.producer (ReactiveLayer.super (NOVA.reactive n))));
      EvConsumerClose
        (Consumer.name (NOVALayer.consumer (ReactiveLayer.super (NOVA.reactive n))));
      EvFlush (Producer.name (NOVALayer.producer (ResponsiveLayer.super (NOVA.responsive n))));
      EvConsumerClose
        (Consumer.name (NOVALayer.consumer (ResponsiveLayer.super (NOVA.responsive n))));
      EvFlush (Producer.name (NOVALayer.producer (ReflectiveLayer.super (NOVA.reflective n))));
      EvConsumerClose
        (Consumer.name (NOVALayer.consumer (ReflectiveLayer.super (NOVA.reflective n)))) ].
Proof.
  intros Hsound o n'. subst n' o.
  unfold producers in Hsound.
  apply Forall_cons in Hsound as [H1 Hsound].
  apply Forall_cons in Hsound as [H2 Hsound].
  apply Forall_cons in Hsound as [H3 _].
  unfold sound in H1, H2, H3.
  unfold NOVA.close, for_each, close, NOVALayer.close, Producer.flush, Consumer.close,
    emit, producers, held, res_of, self_of, world_of.
  unfold_M. cbn. rewrite H1. cbn. rewrite H2. cbn. rewrite H3. cbn.
  rewrite <- !app_assoc. cbn.
  repeat split. repeat constructor.
Qed.

Lemma nova_close_closes_everything_witness :
  res_of (NOVA.close nova_ok world0) = Ok tt ∧
  Consumer.closed
    (NOVALayer.consumer (ReflectiveLayer.super (NOVA.reflective
       (self_of (NOVA.close nova_ok world0))))) = true.
Proof.
  destruct (nova_close_closes_everything nova_ok world0 nova_ok_sound)
    as (Hres & _ & _ & _ & _ & Hclosed & _).
  split; [exact Hres | exact Hclosed].
Defined.

(** X11. [NOVA.close] stops at the first layer whose [close] raises, and
    raises that exception: the layers after it are not closed at all.
    When the reactive layer's flush raises, no consumer is closed and the
    responsive and reflective layers are untouched; when the responsive
    layer's flush is the first to raise, the reactive layer is closed and
    the reflective layer untouched. *)
Theorem nova_close_stops_at_first_failure (n : NOVA.t) (w : World) (fault : string) :
  let pr := NOVALayer.producer (ReactiveLayer.super (NOVA.reactive n)) in
  let ps := NOVALayer.producer (ResponsiveLayer.super (NOVA.responsive n)) in
  let o := NOVA.close n w in
  let n' := self_of o in
  (Producer.faults pr (Producer.ops pr) = Some fault →
   res_of o = Raise (ExternalError fault) ∧
   NOVALayer.consumer (ReactiveLayer.super (NOVA.reactive n')) =
     NOVALayer.consumer (ReactiveLayer.super (NOVA.reactive n)) ∧
   NOVA.responsive n' = NOVA.responsive n ∧
   NOVA.reflective n' = NOVA.reflective n ∧
   trace (world_of o) = trace w ++ [EvFlush (Producer.name pr)]) ∧
  (sound pr → Producer.faults ps (Producer.ops ps) = Some fault →
   res_of o = Raise (ExternalError fault) ∧
   Consumer.closed (NOVALayer.consumer (ReactiveLayer.super (NOVA.reactive n'))) = true ∧
   NOVALayer.consumer (ResponsiveLayer.super (NOVA.responsive n')) =
     NOVALayer.consumer (ResponsiveLayer.super (NOVA.responsive n)) ∧
   NOVA.reflective n' = NOVA.reflective n).
Proof.
  intros pr ps o n'. subst n' o pr ps.
  unfold sound, NOVA.close, for_each, close, NOVALayer.close, Producer.flush,
    Consumer.close, emit, res_of, self_of, world_of.
  unfold_M. cbn. split.
  - intros H1. rewrite H1. cbn. repeat split.
  - intros H1 H2. rewrite H1. cbn. rewrite H2. cbn. repeat split.
Qed.

Lemma nova_close_stops_at_first_failure_witness :
  res_of (NOVA.close nova_broker_down world0) = Raise (ExternalError "broker unreachable") ∧
  NOVA.reflective (self_of (NOVA.close nova_broker_down world0)) =
    NOVA.reflective nova_broker_down.
Proof.
  destruct (nova_close_stops_at_first_failure nova_broker_down world0 "broker unreachable")
    as [Hfirst _].
  destruct Hfirst as (Hres & _ & _ & Hreflective & _); [reflexivity|].
  split; [exact Hres | exact Hreflective].
Defined.

(** ** What a round leaves behind *)

Lemma flush_all_self (n : NOVA.t) (w : World) :
  let o := NOVA.flush_all n w in
  let n' := self_of o in
  ReactiveLayer.ollama (NOVA.reactive n') = ReactiveLayer.ollama (NOVA.reactive n) ∧
  ResponsiveLayer.ollama (NOVA.responsive n') = ResponsiveLayer.ollama (NOVA.responsive n) ∧
  ReflectiveLayer.ollama (NOVA.reflective n') = ReflectiveLayer.ollama (NOVA.reflective n) ∧
  ResponsiveLayer.context_history (NOVA.responsive n') =
    ResponsiveLayer.context_history (NOVA.responsive n) ∧
  ReflectiveLayer.learned_patterns (NOVA.reflective n') =
    ReflectiveLayer.learned_patterns (NOVA.reflective n) ∧
  map held (producers n') = map held (producers n) ∧
  (res_of o = Ok tt → Forall (λ p, Producer.pending p = []) (producers n')).
Proof.
  unfold NOVA.flush_all, for_each, flush_producer, Producer.flush, emit, producers, held,
    res_of, self_of, world_of.
  unfold_M. cbn.
  destruct (Producer.faults (NOVALayer.producer (ReactiveLayer.super (NOVA.reactive n))) _);
    cbn; [repeat split; discriminate|].
  destruct (Producer.faults (NOVALayer.producer (ResponsiveLayer.super (NOVA.responsive n))) _);
    cbn; [rewrite ?app_nil_r; repeat split; discriminate|].
  destruct (Producer.faults (NOVALayer.producer (ReflectiveLayer.super (NOVA.reflective n))) _);
    cbn; rewrite ?app_nil_r; repeat split; try discriminate.
  intros _. repeat constructor.
Qed.

Lemma responsive_process_self (msg : Message) (l : ResponsiveLayer.t) (w : World) :
  self_of (ResponsiveLayer.process msg l w) =
  ResponsiveLayer.set_ollama (called (ResponsiveLayer.ollama l))
    (ResponsiveLayer.set_context_history (responsive_history l msg) l).
Proof.
  rewrite responsive_process_eq. cbv zeta. destruct (answer _ _); reflexivity.
Qed.

Lemma reflective_process_self (msg : Message) (l : ReflectiveLayer.t) (w : World) :
  self_of (ReflectiveLayer.process msg l w) =
  match answer (ReflectiveLayer.ollama l) (reflective_request l msg) with
  | ChatOk text =>
      ReflectiveLayer.set_learned_patterns (ReflectiveLayer.learned_patterns l ++ [text])
        (ReflectiveLayer.set_ollama (called (ReflectiveLayer.ollama l)) l)
  | ChatErr _ => ReflectiveLayer.set_ollama (called (ReflectiveLayer.ollama l)) l
  end.
Proof.
  rewrite reflective_process_eq. cbv zeta. destruct (answer _ _); reflexivity.
Qed.

(** The object after a round, whether the round returned or raised. *)
Lemma round_self (msg : Message) (n : NOVA.t) (w : World) :
  let n' := self_of (NOVA.process_message msg n w) in
  ReactiveLayer.ollama (NOVA.reactive n') = called (ReactiveLayer.ollama (NOVA.reactive n)) ∧
  ResponsiveLayer.ollama (NOVA.responsive n') =
    called (ResponsiveLayer.ollama (NOVA.responsive n)) ∧
  ReflectiveLayer.ollama (NOVA.reflective n') =
    called (ReflectiveLayer.ollama (NOVA.reflective n)) ∧
  ResponsiveLayer.context_history (NOVA.responsive n') =
    responsive_history (NOVA.responsive n) msg ∧
  ReflectiveLayer.learned_patterns (NOVA.reflective n') =
    match backend_answer "reflective" msg n with
    | ChatOk text => ReflectiveLayer.learned_patterns (NOVA.reflective n) ++ [text]
    | ChatErr _ => ReflectiveLayer.learned_patterns (NOVA.reflective n)
    end ∧
  map held (producers n') = map held (producers n) ∧
  (∀ results, res_of (NOVA.process_message msg n w) = Ok results →
     Forall (λ p, Producer.pending p = []) (producers n')).
Proof.
  cbv zeta. rewrite process_message_eq. cbv zeta.
  match goal with
  | |- context [NOVA.flush_all ?n3 ?w3] =>
      pose proof (flush_all_self n3 w3) as Hf; cbv zeta in Hf;
      destruct (NOVA.flush_all n3 w3) as [[rf nf] wf] eqn:Ef
  end.
  unfold res_of, self_of, world_of in *. cbn [fst snd] in *.
  destruct Hf as (F1 & F2 & F3 & F4 & F5 & F6 & F7).
  cbn [NOVA.reactive NOVA.responsive NOVA.reflective] in F1, F2, F3, F4, F5.
  rewrite reactive_process_eq, responsive_process_eq, reflective_process_eq in *.
  cbv zeta in *.
  destruct (backend_answer_eq msg n) as (_ & _ & ->).
  destruct rf as [[]|e];
  destruct (answer (ReactiveLayer.ollama _) _), (answer (ResponsiveLayer.ollama _) _),
    (answer (ReflectiveLayer.ollama _) _); cbn in *;
  rewrite F1, F2, F3, F4, F5, F6; repeat split; try discriminate; try (intros; by apply F7).
Qed.

(** X12. A round calls each of the three backends exactly once, also when
    an earlier stage has failed; and it changes the stages whether it
    returns or raises: the content of the message is in the Responsive
    history (the last 5 of the old history and the content), and the
    Reflective answer, if there was one, is appended to the patterns.  A
    round whose flush raised has still changed the stages. *)
Theorem round_changes_stages (msg : Message) (n : NOVA.t) (w : World) :
  let n' := self_of (NOVA.process_message msg n w) in
  OllamaClient.calls (ReactiveLayer.ollama (NOVA.reactive n')) =
    Datatypes.S (OllamaClient.calls (ReactiveLayer.ollama (NOVA.reactive n))) ∧
  OllamaClient.calls (ResponsiveLayer.ollama (NOVA.responsive n')) =
    Datatypes.S (OllamaClient.calls (ResponsiveLayer.ollama (NOVA.responsive n))) ∧
  OllamaClient.calls (ReflectiveLayer.ollama (NOVA.reflective n')) =
    Datatypes.S (OllamaClient.calls (ReflectiveLayer.ollama (NOVA.reflective n))) ∧
  ResponsiveLayer.context_history (NOVA.responsive n') =
    last_n 5 (ResponsiveLayer.context_history (NOVA.responsive n) ++
              [dict_get msg "content" ""]) ∧
  ReflectiveLayer.learned_patterns (NOVA.reflective n') =
    match backend_answer "reflective" msg n with
    | ChatOk text => ReflectiveLayer.learned_patterns (NOVA.reflective n) ++ [text]
    | ChatErr _ => ReflectiveLayer.learned_patterns (NOVA.reflective n)
    end.
Proof.
  destruct (round_self msg n w) as (H1 & H2 & H3 & H4 & H5 & _).
  cbv zeta. rewrite H1, H2, H3, H4, H5. repeat split.
Qed.

Lemma flush_attempts_no_produce (ps : list Producer.t) :
  Forall (λ ev, is_produce ev = false) (flush_attempts ps).1.
Proof.
  induction ps as [|p ps IH]; simpl; [constructor|].
  destruct (Producer.faults p (Producer.ops p)); simpl; [repeat constructor|].
  destruct (flush_attempts ps). simpl in *. by constructor.
Qed.

(** X13. A round publishes nothing: none of its external calls is a
    [produce], and each producer holds after the round exactly the
    messages it held before.  When the round returns, the three queues are
    empty: whatever had been queued by earlier [publish] calls is
    delivered. *)
Theorem round_publishes_nothing (msg : Message) (n : NOVA.t) (w : World) :
  let o := NOVA.process_message msg n w in
  (∃ evs, trace (world_of o) = trace w ++ evs ∧
          Forall (λ ev, is_produce ev = false) evs) ∧
  map held (producers (self_of o)) = map held (producers n) ∧
  (∀ results, res_of o = Ok results →
     Forall (λ p, Producer.pending p = []) (producers (self_of o)) ∧
     map Producer.delivered (producers (self_of o)) = map held (producers n)).
Proof.
  intros o. subst o.
  destruct (process_message_spec msg n w) as [_ Htrace]. cbv zeta in Htrace.
  destruct (round_self msg n w) as (_ & _ & _ & _ & _ & Hheld & Hempty).
  cbv zeta in Hheld, Hempty.
  split.
  { eexists. split; [exact Htrace|].
    apply Forall_app. split; [repeat constructor|].
    apply Forall_app. split.
    { unfold round_stage_events, stage_events.
      destruct (backend_answer "reactive" msg n), (backend_answer "responsive" msg n),
        (backend_answer "reflective" msg n); simpl; repeat constructor. }
    apply Forall_app. split; [apply flush_attempts_no_produce|].
    destruct (flush_attempts (producers n)).2; repeat constructor. }
  split; [exact Hheld|].
  intros results Hres. specialize (Hempty results Hres). split; [exact Hempty|].
  rewrite <- Hheld. unfold producers, held in *.
  apply Forall_cons in Hempty as [E1 Hempty].
  apply Forall_cons in Hempty as [E2 Hempty].
  apply Forall_cons in Hempty as [E3 _].
  cbn [map]. rewrite E1, E2, E3, !app_nil_r. reflexivity.
Qed.

Lemma round_publishes_nothing_witness :
  ∃ results,
    res_of (NOVA.process_message msg0 nova_ok world0) = Ok results ∧
    Forall (λ p, Producer.pending p = [])
      (producers (self_of (NOVA.process_message msg0 nova_ok world0))).
Proof.
  destruct (round_publishes_nothing msg0 nova_ok world0) as (_ & _ & Hret).
  destruct (process_message_spec msg0 nova_ok world0) as [Hres _].
  cbv zeta in Hres, Hret.
  eexists. split; [exact Hres|].
  destruct (Hret _ Hres) as [Hempty _]. exact Hempty.
Defined.

(** ** Several rounds *)

Lemma round_feed (msgs : list Message) (n : NOVA.t) (w : World) :
  (length (ResponsiveLayer.context_history (NOVA.responsive n)) ≤ 5)%nat →
  let final := (feed NOVA.process_message msgs n w).1 in
  ResponsiveLayer.context_history (NOVA.responsive final) =
    last_n 5 (ResponsiveLayer.context_history (NOVA.responsive n) ++
              map (λ m, dict_get m "content" "") msgs) ∧
  OllamaClient.calls (ReactiveLayer.ollama (NOVA.reactive final)) =
    (OllamaClient.calls (ReactiveLayer.ollama (NOVA.reactive n)) + length msgs)%nat ∧
  OllamaClient.calls (ResponsiveLayer.ollama (NOVA.responsive final)) =
    (OllamaClient.calls (ResponsiveLayer.ollama (NOVA.responsive n)) + length msgs)%nat ∧
  OllamaClient.calls (ReflectiveLayer.ollama (NOVA.reflective final)) =
    (OllamaClient.calls (ReflectiveLayer.ollama (NOVA.reflective n)) + length msgs)%nat ∧
  (length (ReflectiveLayer.learned_patterns (NOVA.reflective n)) ≤
   length (ReflectiveLayer.learned_patterns (NOVA.reflective final)) ≤
   length (ReflectiveLayer.learned_patterns (NOVA.reflective n)) + length msgs)%nat ∧
  map held (producers final) = map held (producers n).
Proof.
  revert n w. induction msgs as [|m msgs IH]; intros n w Hlen; cbn [feed map length].
  - cbv zeta. cbn. rewrite app_nil_r, last_n_short by assumption.
    repeat split; try reflexivity; try lia.
  - destruct (round_self m n w) as (H1 & H2 & H3 & H4 & H5 & H6 & _).
    cbv zeta in H1, H2, H3, H4, H5, H6.
    set (n1 := self_of (NOVA.process_message m n w)) in *.
    set (w1 := world_of (NOVA.process_message m n w)) in *.
    specialize (IH n1 w1). cbv zeta in IH.
    destruct IH as (I1 & I2 & I3 & I4 & I5 & I6).
    { rewrite H4. apply last_n_length. }
    cbv zeta. set (final := (feed NOVA.process_message msgs n1 w1).1) in *.
    clearbody final n1 w1.
    rewrite I1, I2, I3, I4, I6, H1, H2, H3, H4, H6.
    unfold responsive_history. rewrite last_n_last_n_app, <- app_assoc.
    assert (Hpat :
      (length (ReflectiveLayer.learned_patterns (NOVA.reflective n)) ≤
       length (ReflectiveLayer.learned_patterns (NOVA.reflective n1)) ≤
       length (ReflectiveLayer.learned_patterns (NOVA.reflective n)) + 1)%nat).
    { rewrite H5. destruct (backend_answer "reflective" m n);
        rewrite ?length_app; simpl; lia. }
    cbn [called OllamaClient.calls app].
    repeat split; try reflexivity; lia.
Qed.

(** X14. After any sequence of rounds on an orchestrator that starts with
    an empty history, whichever rounds returned or raised, the Responsive
    history is the last 5 contents received, each backend has been called
    once per round, the patterns hold at most one entry per round, and the
    producers hold what they held at the start. *)
Theorem rounds_accumulate (msgs : list Message) (n : NOVA.t) (w : World) :
  ResponsiveLayer.context_history (NOVA.responsive n) = [] →
  ReflectiveLayer.learned_patterns (NOVA.reflective n) = [] →
  let final := (feed NOVA.process_message msgs n w).1 in
  ResponsiveLayer.context_history (NOVA.responsive final) =
    last_n 5 (map (λ m, dict_get m "content" "") msgs) ∧
  OllamaClient.calls (ReactiveLayer.ollama (NOVA.reactive final)) =
    (OllamaClient.calls (ReactiveLayer.ollama (NOVA.reactive n)) + length msgs)%nat ∧
  OllamaClient.calls (ResponsiveLayer.ollama (NOVA.responsive final)) =
    (OllamaClient.calls (ResponsiveLayer.ollama (NOVA.responsive n)) + length msgs)%nat ∧
  OllamaClient.calls (ReflectiveLayer.ollama (NOVA.reflective final)) =
    (OllamaClient.calls (ReflectiveLayer.ollama (NOVA.reflective n)) + length msgs)%nat ∧
  (length (ReflectiveLayer.learned_patterns (NOVA.reflective final)) ≤ length msgs)%nat ∧
  map held (producers final) = map held (producers n).
Proof.
  intros Hhist Hpat final. subst final.
  destruct (round_feed msgs n w) as (I1 & I2 & I3 & I4 & I5 & I6).
  { rewrite Hhist. simpl. lia. }
  cbv zeta in *. rewrite Hhist in I1. rewrite Hpat in I5. simpl in I1, I5.
  repeat split; try assumption. lia.
Qed.

Lemma rounds_accumulate_witness :
  ResponsiveLayer.context_history
    (NOVA.responsive (feed NOVA.process_message [msg0; msg0] nova_broker_down world0).1) =
  ["test input"; "test input"].
Proof.
  destruct (rounds_accumulate [msg0; msg0] nova_broker_down world0) as (Hhist & _).
  - reflexivity.
  - reflexivity.
  - exact Hhist.
Defined.

(** ** The timing fields of a round *)

Lemma round_entry_end_time (name : string) (msg : Message) (n : NOVA.t) (w : World) (t : Z) :
  round_entry name msg n w !! "end_time" = Some (VNum t) →
  t = reading w 1 ∧ stage_reads (backend_answer name msg n) = 2%nat.
Proof.
  unfold round_entry. destruct (backend_answer name msg n) as [text|cause].
  - rewrite dict_update_lookup.
    destruct (timing_lookup (reading w 0) (reading w 1)) as (_ & -> & _).
    intros [= <-]. split; reflexivity.
  - unfold NOVA.error_entry. intros H. by simplify_map_eq.
Qed.

Lemma round_entry_start_time (name : string) (msg : Message) (n : NOVA.t) (w : World) (t : Z) :
  round_entry name msg n w !! "start_time" = Some (VNum t) →
  t = reading w 0 ∧ stage_reads (backend_answer name msg n) = 2%nat.
Proof.
  unfold round_entry. destruct (backend_answer name msg n) as [text|cause].
  - rewrite dict_update_lookup.
    destruct (timing_lookup (reading w 0) (reading w 1)) as (-> & _ & _).
    intros [= <-]. split; reflexivity.
  - unfold NOVA.error_entry. intros H. by simplify_map_eq.
Qed.

(** X15. In the mapping a round returns, the stages' time intervals do not
    overlap: with a clock that does not go backwards, the [end_time] of an
    earlier stage is at most the [start_time] of a later one, in the order
    reactive, responsive, reflective.  The stages have run one after the
    other. *)
Theorem stage_intervals_ordered
    (msg : Message) (n : NOVA.t) (w : World) (results : gmap string dict)
    (a b : string) (ea eb : dict) (ta tb : Z) :
  clock_monotone w →
  res_of (NOVA.process_message msg n w) = Ok results →
  (a, b) ∈ [("reactive", "responsive"); ("reactive", "reflective");
            ("responsive", "reflective")] →
  results !! a = Some ea →
  results !! b = Some eb →
  ea !! "end_time" = Some (VNum ta) →
  eb !! "start_time" = Some (VNum tb) →
  ta ≤ tb.
Proof.
  intros Hmono Hres Hin Ha Hb Hta Htb.
  destruct (process_message_spec msg n w) as [Hspec _]. cbv zeta in Hspec.
  rewrite Hspec in Hres. destruct (flush_attempts (producers n)).2; [discriminate|].
  inversion Hres; subst results; clear Hres Hspec.
  destruct (round_results_lookup msg n w) as (L1 & L2 & L3). cbv zeta in L1, L2, L3.
  repeat (apply elem_of_cons in Hin as [Hin|Hin]); [| | |by apply elem_of_nil in Hin].
  all: inversion Hin; subst a b; clear Hin.
  all: rewrite ?L1, ?L2, ?L3 in Ha, Hb.
  all: inversion Ha; subst ea; inversion Hb; subst eb; clear Ha Hb.
  all: apply round_entry_end_time in Hta as [-> Ra].
  all: apply round_entry_start_time in Htb as [-> Rb].
  all: unfold reading, advance; cbn [ticks clock]; apply Hmono; lia.
Qed.

Lemma stage_intervals_ordered_witness : 120 ≤ 130.
Proof.
  destruct (round_results_lookup msg0 nova_ok world0) as (L1 & L2 & _).
  destruct (process_message_spec msg0 nova_ok world0) as [Hres _].
  apply (stage_intervals_ordered msg0 nova_ok world0
           (round_results msg0 nova_ok world0) "reactive" "responsive"
           (round_entry "reactive" msg0 nova_ok (advance 1 [] world0))
           (round_entry "responsive" msg0 nova_ok (advance 3 [] world0))
           120 130 world0_monotone Hres).
  - apply list_elem_of_here.
  - exact L1.
  - exact L2.
  - reflexivity.
  - reflexivity.
Defined.

(** X16. In the mapping a round returns, the entry of a failed stage is
    told from a result by its [type], which is ["<stage>_error"] and never
    the tag of a result; and it lacks the fields of a result: no [source],
    no timing field, no [context] and no [patterns].  A caller that reads
    [results['responsive']['context']] or [results['reflective']['patterns']],
    as [main] does, finds no such key when that stage failed. *)
Theorem failed_entry_lacks_result_fields
    (msg : Message) (n : NOVA.t) (w : World) (results : gmap string dict)
    (name cause : string) :
  res_of (NOVA.process_message msg n w) = Ok results →
  name ∈ stage_names →
  backend_answer name msg n = ChatErr cause →
  ∃ entry : dict,
    results !! name = Some entry ∧
    entry !! "type" = Some (VStr (name +:+ "_error")) ∧
    name +:+ "_error" ≠ stage_tag name ∧
    entry !! "source" = None ∧
    entry !! "start_time" = None ∧
    entry !! "end_time" = None ∧
    entry !! "processing_duration" = None ∧
    entry !! "context" = None ∧
    entry !! "patterns" = None.
Proof.
  intros Hres Hin Hans.
  destruct (process_message_spec msg n w) as [Hspec _]. cbv zeta in Hspec.
  rewrite Hspec in Hres. destruct (flush_attempts (producers n)).2; [discriminate|].
  inversion Hres; subst results; clear Hres Hspec.
  destruct (round_results_lookup msg n w) as (L1 & L2 & L3). cbv zeta in L1, L2, L3.
  unfold stage_names in Hin.
  repeat (apply elem_of_cons in Hin as [->|Hin]); [| | |by apply elem_of_nil in Hin].
  all: eexists; split; [eassumption|].
  all: rewrite (round_entry_error _ _ _ _ _ Hans).
  all: repeat split; try (by simplify_map_eq); discriminate.
Qed.

Lemma failed_entry_lacks_result_fields_witness :
  ∃ entry : dict,
    round_results msg0 nova_reflective_down world0 !! "reflective" = Some entry ∧
    entry !! "patterns" = None.
Proof.
  destruct (process_message_spec msg0 nova_reflective_down world0) as [Hres _].
  destruct (failed_entry_lacks_result_fields msg0 nova_reflective_down world0 _
              "reflective" "boom" Hres)
    as (entry & Hentry & _ & _ & _ & _ & _ & _ & _ & Hpatterns).
  - unfold stage_names. do 2 apply list_elem_of_further. apply list_elem_of_here.
  - reflexivity.
  - exists entry. split; [exact Hentry | exact Hpatterns].
Defined.

(** X17. A [publish] that the producer refuses raises [KafkaPublishError]
    with the message ["Failed to publish message to Kafka: <fault>"] and
    the producer's exception as its cause; the message is not queued, and
    nothing retries it: a later [publish] and [close] that succeed deliver
    only the later message. *)
Theorem failed_publish_is_lost
    (l : NOVALayer.t) (w : World) (topic : string) (lost kept : dict) (fault : string) :
  let p := NOVALayer.producer l in
  Producer.faults p (Producer.ops p) = Some fault →
  Producer.faults p (1 + Producer.ops p)%nat = None →
  Producer.faults p (2 + Producer.ops p)%nat = None →
  let o1 := NOVALayer.publish topic lost l w in
  let o2 := (run NOVALayer.publish topic kept ; NOVALayer.close)
              (self_of o1) (world_of o1) in
  res_of o1 =
    Raise (KafkaPublishError ("Failed to publish message to Kafka: " +:+ fault)
             (Some (ExternalError fault))) ∧
  Producer.pending (NOVALayer.producer (self_of o1)) = Producer.pending p ∧
  res_of o2 = Ok tt ∧
  Producer.delivered (NOVALayer.producer (self_of o2)) =
    Producer.delivered p ++ Producer.pending p ++ [(topic, kept)].
Proof.
  intros p H0 H1 H2 o1 o2. subst o2 o1 p. unfold bind. cbn [Nat.add] in H1, H2.
  rewrite !publish_eq. cbv zeta. rewrite H0. cbn. rewrite H1. cbn.
  rewrite close_eq. cbv zeta. cbn. rewrite H2. cbn.
  rewrite <- ?app_assoc. repeat split.
Qed.

Lemma failed_publish_is_lost_witness :
  let o1 := NOVALayer.publish "nova.responsive" {[ "content" := VStr "first" ]}
              flaky_layer world0 in
  let o2 := (run NOVALayer.publish "nova.responsive" {[ "content" := VStr "second" ]} ;
             NOVALayer.close) (self_of o1) (world_of o1) in
  Producer.delivered (NOVALayer.producer (self_of o2)) =
    [("nova.reactive", payload0); ("nova.responsive", {[ "content" := VStr "second" ]})].
Proof.
  destruct (failed_publish_is_lost flaky_layer world0 "nova.responsive"
              {[ "content" := VStr "first" ]} {[ "content" := VStr "second" ]} "timed out")
    as (_ & _ & _ & Hdelivered).
  - reflexivity.
  - reflexivity.
  - reflexivity.
  - exact Hdelivered.
Defined.
